(** * The alarm / note editor of the wallpaper configuration file

    A shallow embedding of [config_manager.py], [alarm_interface.py],
    [note_interface.py] and [utils.time_to_seconds], and the properties of
    the projection / reconciliation logic between the effect library and
    the trigger array.

    Conventions of the embedding:
    - Python integers are [Z]; list positions produced by [enumerate] are
      [nat] and are injected with [Z.of_nat] where the code stores them.
    - Text is [string]: the model is exact on ASCII text.  The built-in
      [int()] also accepts non-ASCII Unicode spaces and digits, and the
      interpreter may cap the number of digits of a literal; neither is
      modelled.
    - A JSON object that the code reads by key (an effect, a trigger, a
      note) is a [gmap string value]; its fields are scalars or arrays.
      Finite floats are kept by their exact rational value; NaN and the
      infinities are outside the model.
    - The two index dictionaries built by [_load_data] are iterated with
      [items()], so they are insertion-ordered association lists.
    - An uncaught Python exception is a [Raise] result; a run that raised
      is not continued.
    - Windows, message boxes, the audio player and the list of sound files
      are left out; what the user selects, types or answers is an argument
      of the operation. *)

From Stdlib Require Import QArith_base Ascii String.
From stdpp Require Import base option numbers list strings gmap.

Local Close Scope Q_scope.
Local Open Scope Z_scope.

(** ** Python values and built-ins *)

Module Py.

Inductive exn := ValueError | TypeError | IndexError | AttributeError.

Inductive result (A : Type) :=
| Ok (a : A)
| Raise (e : exn).
Arguments Ok {A} a.
Arguments Raise {A} e.

#[global] Instance result_ret : MRet result := fun A a => Ok a.
#[global] Instance result_bind : MBind result := fun A B k m =>
  match m with
  | Ok a => k a
  | Raise e => Raise e
  end.

Definition is_ok {A} (m : result A) : bool :=
  match m with Ok _ => true | Raise _ => false end.

(** Values that [json.load] produces below the level of an object. *)
#[warnings="-register-all"]
Inductive value :=
| VNone
| VBool (b : bool)
| VInt (n : Z)
| VFloat (q : Q)
| VStr (s : string)
| VList (l : list value).

(** A JSON object read by key. *)
Abbreviation obj := (gmap string value).

(** [d.get(k)] and [d.get(k, dflt)]: a key bound to [null] yields [None],
    not the default. *)
Definition get (d : obj) (k : string) : value := default VNone (d !! k).
Definition get_default (d : obj) (k : string) (dflt : value) : value :=
  default dflt (d !! k).
(** [k in d] *)
Definition has_key (k : string) (d : obj) : bool := bool_decide (is_Some (d !! k)).
(** [d.pop(k, None)] used as a statement *)
Definition pop (k : string) (d : obj) : obj := delete k d.

(** The number a value stands for in a comparison ([bool] is a subclass of
    [int]; an [int] compares equal to the [float] of the same value). *)
Definition as_number (v : value) : option Q :=
  match v with
  | VBool b => Some (inject_Z (if b then 1 else 0))
  | VInt n => Some (inject_Z n)
  | VFloat q => Some q
  | _ => None
  end.

(** [a == b] *)
Fixpoint py_eq (a b : value) : bool :=
  match a, b with
  | VNone, VNone => true
  | VStr s, VStr t => bool_decide (s = t)
  | VList l, VList m =>
      (fix go (l m : list value) : bool :=
         match l, m with
         | [], [] => true
         | x :: l', y :: m' => py_eq x y && go l' m'
         | _, _ => false
         end) l m
  | _, _ =>
      match as_number a, as_number b with
      | Some p, Some q => Qeq_bool p q
      | _, _ => false
      end
  end.

(** [bool(v)] *)
Definition truthy (v : value) : bool :=
  match v with
  | VNone => false
  | VBool b => b
  | VInt n => negb (n =? 0)
  | VFloat q => negb (Qnum q =? 0)
  | VStr s => negb (bool_decide (s = ""%string))
  | VList l => negb (bool_decide (l = []))
  end.

(** [len(v)] *)
Definition len (v : value) : result Z :=
  match v with
  | VStr s => Ok (Z.of_nat (String.length s))
  | VList l => Ok (Z.of_nat (length l))
  | _ => Raise TypeError
  end.

(** [v[0]] *)
Definition index0 (v : value) : result value :=
  match v with
  | VList (x :: _) => Ok x
  | VStr (String c _) => Ok (VStr (String c EmptyString))
  | VList [] | VStr EmptyString => Raise IndexError
  | _ => Raise TypeError
  end.

(** [isinstance(v, int)] *)
Definition isinstance_int (v : value) : bool :=
  match v with
  | VInt _ | VBool _ => true
  | _ => false
  end.

(** [l[i]] on a list, with Python's negative positions. *)
Definition list_index {A} (l : list A) (i : Z) : result A :=
  let n := Z.of_nat (length l) in
  let j := if i <? 0 then i + n else i in
  if (0 <=? j) && (j <? n) then
    match l !! Z.to_nat j with
    | Some x => Ok x
    | None => Raise IndexError
    end
  else Raise IndexError.

(** *** Decimal text of an integer: [str(n)] *)

Definition digit_char (d : Z) : ascii :=
  ascii_of_nat (48 + Z.to_nat d).

Fixpoint digits_from (fuel : nat) (n : Z) (acc : string) : string :=
  match fuel with
  | O => acc
  | S fuel' =>
      let acc' := String (digit_char (n mod 10)) acc in
      if n / 10 =? 0 then acc' else digits_from fuel' (n / 10) acc'
  end.

Definition str_nonneg (n : Z) : string :=
  digits_from (S (Z.to_nat (Z.log2 n))) n EmptyString.

Definition str (n : Z) : string :=
  if n <? 0 then String "-" (str_nonneg (- n)) else str_nonneg n.

(** *** Integer of a text: [int(s)] *)

Definition digit_of (c : ascii) : option Z :=
  let k := Z.of_nat (nat_of_ascii c) in
  if (48 <=? k) && (k <=? 57) then Some (k - 48) else None.

(** The characters [int()] skips around an ASCII literal. *)
Definition is_space (c : ascii) : bool :=
  let k := Z.of_nat (nat_of_ascii c) in
  ((9 <=? k) && (k <=? 13)) || (k =? 32).

Fixpoint lstrip (s : string) : string :=
  match s with
  | String c s' => if is_space c then lstrip s' else s
  | EmptyString => s
  end.

Fixpoint all_space (s : string) : bool :=
  match s with
  | String c s' => is_space c && all_space s'
  | EmptyString => true
  end.

(** Digits with single underscores between them; [prev] says that the
    character just read was an underscore. *)
Fixpoint scan_digits (acc : Z) (prev : bool) (s : string) : option (Z * string) :=
  match s with
  | String c s' =>
      match digit_of c with
      | Some d => scan_digits (acc * 10 + d) false s'
      | None =>
          if prev then None
          else if Ascii.eqb c "_" then scan_digits acc true s'
          else Some (acc, s)
      end
  | EmptyString => if prev then None else Some (acc, s)
  end.

Definition int_of_string (s : string) : option Z :=
  let s1 := lstrip s in
  let '(neg, s2) :=
    match s1 with
    | String "+" r => (false, r)
    | String "-" r => (true, r)
    | _ => (false, s1)
    end in
  match s2 with
  | String c _ =>
      if bool_decide (is_Some (digit_of c)) then
        match scan_digits 0 false s2 with
        | Some (n, rest) =>
            if all_space rest then Some (if neg then - n else n) else None
        | None => None
        end
      else None
  | EmptyString => None
  end.

(** [int(v)] *)
Definition int (v : value) : result Z :=
  match v with
  | VInt n => Ok n
  | VBool b => Ok (if b then 1 else 0)
  | VFloat q => Ok (Z.quot (Qnum q) (Z.pos (Qden q)))
  | VStr s =>
      match int_of_string s with
      | Some n => Ok n
      | None => Raise ValueError
      end
  | VNone | VList _ => Raise TypeError
  end.

(** [s.split(sep)] for a one-character separator. *)
Fixpoint split (sep : ascii) (s : string) : list string :=
  match s with
  | EmptyString => [EmptyString]
  | String c s' =>
      if Ascii.eqb c sep then EmptyString :: split sep s'
      else match split sep s' with
           | h :: t => String c h :: t
           | [] => [String c EmptyString]
           end
  end.

(** *** Insertion-ordered dictionaries with integer keys *)

Abbreviation dict := (list (Z * Z)).

(** [d[k] = v] *)
Fixpoint dict_set (k v : Z) (d : dict) : dict :=
  match d with
  | [] => [(k, v)]
  | (k', v') :: d' => if k' =? k then (k, v) :: d' else (k', v') :: dict_set k v d'
  end.

(** [d.get(k)] for an integer key *)
Fixpoint dict_lookup (d : dict) (k : Z) : option Z :=
  match d with
  | [] => None
  | (k', v') :: d' => if k' =? k then Some v' else dict_lookup d' k
  end.

(** The integer key that hashes and compares like [v], if any; a list is
    unhashable. *)
Definition as_key (v : value) : result (option Z) :=
  match v with
  | VInt n => Ok (Some n)
  | VBool b => Ok (Some (if b then 1 else 0))
  | VFloat q =>
      Ok (if Z.rem (Qnum q) (Z.pos (Qden q)) =? 0
          then Some (Z.quot (Qnum q) (Z.pos (Qden q))) else None)
  | VNone | VStr _ => Ok None
  | VList _ => Raise TypeError
  end.

(** [d.get(v, dflt)] for an arbitrary value as key *)
Definition dict_get (d : dict) (v : value) (dflt : Z) : result Z :=
  k ← as_key v;
  Ok (match k with
      | Some n => default dflt (dict_lookup d n)
      | None => dflt
      end).

End Py.

Import Py.

(** [enumerate(l)] *)
Fixpoint enumerate_from {A} (i : nat) (l : list A) : list (nat * A) :=
  match l with
  | [] => []
  | x :: l' => (i, x) :: enumerate_from (S i) l'
  end.
Definition enumerate {A} (l : list A) : list (nat * A) := enumerate_from 0 l.

(** ** The configuration document *)

(** A mesh: its trigger array when the key is present, and its other
    fields. *)
Record mesh := Mesh {
  specialEffectTriggers : option (list obj);
  mesh_rest : obj
}.

(** The parsed [config.json]: the three keys the editor reads, each absent
    or present, and the remaining top-level fields. *)
Record document := Document {
  notes : option (list obj);
  meshes : option (list mesh);
  specialEffectLibrary : option (list obj);
  doc_rest : obj
}.

(** An empty dictionary is false in a condition. *)
Definition doc_is_empty (d : document) : bool :=
  match notes d, meshes d, specialEffectLibrary d with
  | None, None, None => bool_decide (doc_rest d = ∅)
  | _, _, _ => false
  end.

(** [e.get("type") == 6] *)
Definition is_type6 (e : obj) : bool := py_eq (get e "type") (VInt 6).

(** ["triggerAtSecondOfDay" in t] *)
Definition is_time_trigger (t : obj) : bool := has_key "triggerAtSecondOfDay" t.

(** [[i for i, e in enumerate(effects) if e.get("type") == 6]] *)
Definition type6_indices (effects : list obj) : list nat :=
  fst <$> filter (fun ie => is_type6 (snd ie)) (enumerate effects).

Definition set_triggers (ts : list obj) (m : mesh) : mesh :=
  {| specialEffectTriggers := Some ts; mesh_rest := mesh_rest m |}.

Definition with_library (lib : option (list obj)) (d : document) : document :=
  {| notes := notes d; meshes := meshes d;
     specialEffectLibrary := lib; doc_rest := doc_rest d |}.

Definition with_meshes (ms : option (list mesh)) (d : document) : document :=
  {| notes := notes d; meshes := ms;
     specialEffectLibrary := specialEffectLibrary d; doc_rest := doc_rest d |}.

Definition with_notes (ns : option (list obj)) (d : document) : document :=
  {| notes := ns; meshes := meshes d;
     specialEffectLibrary := specialEffectLibrary d; doc_rest := doc_rest d |}.

(** ** config_manager.py *)

Module ConfigManager.

(** What an attempt to write the file leaves behind: the dumped document,
    or a failure with whatever is then on disk. *)
Inductive write_outcome :=
| Written
| WriteFailed (left_on_disk : option document).

(** The manager object and, in [disk], the content of the file at
    [config_path] as [json.load] reads it ([None]: no readable file). *)
Record t := Make {
  config_path : option string;
  config_data : option document;
  disk : option document
}.

Definition with_data (c : option document) (self : t) : t :=
  {| config_path := config_path self; config_data := c; disk := disk self |}.

(** [not self.config_data] *)
Definition no_data (self : t) : bool :=
  match config_data self with
  | None => true
  | Some d => doc_is_empty d
  end.

(** [not self.config_path] *)
Definition no_path (self : t) : bool :=
  match config_path self with
  | None => true
  | Some p => bool_decide (p = ""%string)
  end.

Definition load_config (self : t) : t * bool :=
  if no_path self then (self, false)
  else match disk self with
       | Some d => (with_data (Some d) self, true)
       | None => (self, false)
       end.

Definition save_config (w : write_outcome) (self : t) : t * bool :=
  if no_path self || no_data self then (self, false)
  else match w with
       | Written =>
           ({| config_path := config_path self; config_data := config_data self;
               disk := config_data self |}, true)
       | WriteFailed rem =>
           ({| config_path := config_path self; config_data := config_data self;
               disk := rem |}, false)
       end.

(** The list [get_notes] returns is the very list stored under ["notes"]
    when the key is there ([shared = true]); otherwise it is a new empty
    list. *)
Definition get_notes (self : t) : list obj * bool :=
  if no_data self then ([], false)
  else match config_data self with
       | Some d =>
           match notes d with
           | Some ns => (ns, true)
           | None => ([], false)
           end
       | None => ([], false)
       end.

Definition set_notes (ns : list obj) (self : t) : t :=
  if no_data self then self
  else with_data (with_notes (Some ns) <$> config_data self) self.

Definition get_type6_effects (self : t) : list obj :=
  if no_data self then []
  else match config_data self with
       | Some d => filter (fun e => is_type6 e) (default [] (specialEffectLibrary d))
       | None => []
       end.

Definition set_type6_effect (index : Z) (effect : obj) (self : t) : t :=
  if no_data self then self
  else match config_data self with
       | Some d =>
           let effects := default [] (specialEffectLibrary d) in
           let type6_indices := type6_indices effects in
           let effects' :=
             if (0 <=? index) && (index <? Z.of_nat (length type6_indices)) then
               match type6_indices !! Z.to_nat index with
               | Some actual_index => <[actual_index := effect]> effects
               | None => effects
               end
             else effects in
           with_data (Some (with_library (Some effects') d)) self
       | None => self
       end.

Definition add_type6_effect (effect : obj) (self : t) : t * Z :=
  if no_data self then (self, -1)
  else match config_data self with
       | Some d =>
           let effects := default [] (specialEffectLibrary d) ++ [effect] in
           (with_data (Some (with_library (Some effects) d)) self,
            Z.of_nat (length effects) - 1)
       | None => (self, -1)
       end.

Definition remove_type6_effect (index : Z) (self : t) : t :=
  if no_data self then self
  else match config_data self with
       | Some d =>
           match specialEffectLibrary d with
           | Some effects =>
               let type6_indices := type6_indices effects in
               if (0 <=? index) && (index <? Z.of_nat (length type6_indices)) then
                 match type6_indices !! Z.to_nat index with
                 | Some actual_index =>
                     with_data (Some (with_library (Some (delete actual_index effects)) d)) self
                 | None => self
                 end
               else self
           | None => self
           end
       | None => self
       end.

(** [meshes[0].get("specialEffectTriggers", [])] *)
Definition triggers_of (m : mesh) : list obj := default [] (specialEffectTriggers m).

Definition get_time_triggers (self : t) : list obj :=
  if no_data self then []
  else match config_data self with
       | Some d =>
           match default [] (meshes d) with
           | [] => []
           | m0 :: _ => filter (fun t => is_time_trigger t) (triggers_of m0)
           end
       | None => []
       end.

Definition set_time_triggers (triggers : list obj) (self : t) : t :=
  if no_data self then self
  else match config_data self with
       | Some d =>
           match default [] (meshes d) with
           | [] => self
           | m0 :: rest =>
               let all_triggers := triggers_of m0 in
               let non_time_triggers :=
                 filter (fun t => negb (is_time_trigger t)) all_triggers in
               with_data
                 (Some (with_meshes
                          (Some (set_triggers (non_time_triggers ++ triggers) m0 :: rest)) d))
                 self
           end
       | None => self
       end.

(** [history.remove(directory)]: the first occurrence goes. *)
Fixpoint list_remove (directory : string) (history : list string) : list string :=
  match history with
  | [] => []
  | h :: rest => if bool_decide (h = directory) then rest else h :: list_remove directory rest
  end.

(** The list [save_directory_to_history] writes, from the list it read
    ([[]] when there is no history file). *)
Definition updated_history (directory : string) (history : list string) : list string :=
  let history :=
    if bool_decide (directory ∈ history) then list_remove directory history else history in
  take 10 (directory :: history).

End ConfigManager.

(** ** utils.py *)

Module Utils.

(** [time_to_seconds]: every exception of the [try] block is caught, and
    each way out that is not the [return] inside it yields -1. *)
Definition time_to_seconds (time_str : string) : Z :=
  match split ":" time_str with
  | [p0; p1] =>
      match
        (hours ← int (VStr p0);
         minutes ← int (VStr p1);
         Ok (if (0 <=? hours) && (hours <? 24) && (0 <=? minutes) && (minutes <? 60)
             then hours * 3600 + minutes * 60
             else -1))
      with
      | Ok r => r
      | Raise _ => -1
      end
  | _ => -1
  end.

(** [f"{n:02d}"]: at least two characters, padded with a zero. *)
Definition format_02d (n : Z) : string :=
  let s := str n in
  if (String.length s <? 2)%nat then String "0" s else s.

(** [seconds_to_time]; [//] and [%] round towards minus infinity. *)
Definition seconds_to_time (seconds : Z) : string :=
  let hours := seconds / 3600 in
  let minutes := (seconds mod 3600) / 60 in
  String.append (format_02d hours) (String ":" (format_02d minutes)).

End Utils.

(** ** alarm_interface.py *)

Module AlarmInterface.

(** An entry of [self.alarms]. *)
Record alarm := Alarm {
  seconds : Z;
  enabled : bool;
  name : value;
  audio_file : value;
  loop : value;
  type6_index : Z;
  actual_index : value;
  trigger : obj;
  trigger_index : Z
}.

Record t := Make {
  config_manager : ConfigManager.t;
  alarms : list alarm;
  type6_effects : list obj;
  type6_to_actual_index : dict;
  trigger_to_alarm_map : dict
}.

Definition with_manager (cm : ConfigManager.t) (self : t) : t :=
  {| config_manager := cm; alarms := alarms self;
     type6_effects := type6_effects self;
     type6_to_actual_index := type6_to_actual_index self;
     trigger_to_alarm_map := trigger_to_alarm_map self |}.

Definition with_alarms (al : list alarm) (self : t) : t :=
  {| config_manager := config_manager self; alarms := al;
     type6_effects := type6_effects self;
     type6_to_actual_index := type6_to_actual_index self;
     trigger_to_alarm_map := trigger_to_alarm_map self |}.

(** The loop that fills [type6_to_actual_index]: the dictionary and
    [type6_count] after the scan. *)
Definition project_step (st : dict * Z) (ie : nat * obj) : dict * Z :=
  if is_type6 (snd ie)
  then (dict_set (snd st) (Z.of_nat (fst ie)) (fst st), snd st + 1)
  else st.

Definition project (all_effects : list obj) : dict * Z :=
  foldl project_step ([], 0) (enumerate all_effects).

(** [{v: k for k, v in d.items()}] *)
Definition invert (d : dict) : dict :=
  foldl (fun acc kv => dict_set (snd kv) (fst kv) acc) [] d.

(** [int(x)] under [except (ValueError, TypeError)] with fallback 0. *)
Definition int_or_zero (x : value) : result Z :=
  match int x with
  | Ok n => Ok n
  | Raise ValueError | Raise TypeError => Ok 0
  | Raise e => Raise e
  end.

(** The threshold test on the parsed time field. *)
Definition decode (parsed : Z) : Z * bool :=
  if 100000 <=? parsed then (parsed - 100000, false) else (parsed, true).

(** Reading a time field: the lenient parse, then the threshold test. *)
Definition decode_field (seconds_str : value) : result (Z * bool) :=
  parsed ← int_or_zero seconds_str;
  Ok (decode parsed).

(** The time field written by the editor. *)
Definition encode (seconds : Z) (enabled : bool) : value :=
  VStr (str (if enabled then seconds else seconds + 100000)).

(** The body of the loop over the time triggers: the alarm it appends, if
    any. *)
Definition alarm_of_trigger (type6_effects : list obj) (actual_to_type6_index : dict)
    (trigger_idx : nat) (trigger : obj) : result (option alarm) :=
  let seconds_str := get_default trigger "triggerAtSecondOfDay" (VStr "0") in
  decoded ← decode_field seconds_str;
  let '(seconds, enabled) := decoded in
  let effect_indices := get_default trigger "effectIndices" (VList []) in
  nonempty ← (if truthy effect_indices
              then n ← len effect_indices; Ok (0 <? n)
              else Ok false);
  if nonempty : bool then
    first ← index0 effect_indices;
    actual_index ← (if isinstance_int first then Ok first else index0 first);
    type6_index ← dict_get actual_to_type6_index actual_index (-1);
    if (0 <=? type6_index) && (type6_index <? Z.of_nat (length type6_effects)) then
      effect ← list_index type6_effects type6_index;
      Ok (Some {| seconds := seconds;
                  enabled := enabled;
                  name := get_default effect "text" (VStr "");
                  audio_file := get_default effect "audioFileName" (VStr "");
                  loop := get_default effect "loop" (VBool false);
                  type6_index := type6_index;
                  actual_index := actual_index;
                  trigger := trigger;
                  trigger_index := Z.of_nat trigger_idx |})
    else Ok None
  else Ok None.

Fixpoint load_loop (type6_effects : list obj) (actual_to_type6_index : dict)
    (time_triggers : list (nat * obj)) (alarms : list alarm) (tmap : dict)
  : result (list alarm * dict) :=
  match time_triggers with
  | [] => Ok (alarms, tmap)
  | (trigger_idx, trigger) :: rest =>
      made ← alarm_of_trigger type6_effects actual_to_type6_index trigger_idx trigger;
      match made with
      | Some alarm =>
          load_loop type6_effects actual_to_type6_index rest (alarms ++ [alarm])
            (dict_set (Z.of_nat trigger_idx) (Z.of_nat (length alarms)) tmap)
      | None => load_loop type6_effects actual_to_type6_index rest alarms tmap
      end
  end.

Definition _load_data (self : t) : result t :=
  let cm := config_manager self in
  match ConfigManager.config_data cm with
  | None => Raise AttributeError
  | Some d =>
      let all_effects := default [] (specialEffectLibrary d) in
      let type6_to_actual_index := fst (project all_effects) in
      let type6_effects := ConfigManager.get_type6_effects cm in
      let time_triggers := ConfigManager.get_time_triggers cm in
      let actual_to_type6_index := invert type6_to_actual_index in
      built ← load_loop type6_effects actual_to_type6_index
                 (enumerate time_triggers) [] [];
      Ok {| config_manager := cm;
            alarms := fst built;
            type6_effects := type6_effects;
            type6_to_actual_index := type6_to_actual_index;
            trigger_to_alarm_map := snd built |}
  end.

(** Opening the window on a manager: [__init__]. *)
Definition init (cm : ConfigManager.t) : result t :=
  _load_data {| config_manager := cm; alarms := []; type6_effects := [];
                type6_to_actual_index := []; trigger_to_alarm_map := [] |}.

(** What the user typed in the edit window. *)
Record form := Form {
  time_var : string;
  enabled_var : bool;
  name_var : string;
  audio_var : string;
  loop_var : bool
}.

(** How [save_alarm] ends: with the error box and the edit window still
    open, or with the edit window closed. *)
Inductive verdict := Rejected | Closed.

(** The entry written for a new alarm. *)
Definition new_effect (f : form) : obj :=
  let effect_data : obj :=
    <["fadeOutDuration" := VInt (-1)]>
    (<["scaleDuration" := VInt 500]>
    (<["text" := VStr (name_var f)]>
    (<["verticalFromBottomPercent" := VInt 85]>
    (<["alignRightPercent" := VInt (-1)]>
    (<["alignLeftPercent" := VFloat (Qmake 1170935903116329 2251799813685248)]>
    (<["finalRotation" := VInt 0]>
    (<["initialRotation" := VInt 90]>
    (<["finalScale" := VInt 1]>
    (<["initialScale" := VFloat (Qmake 1 2)]>
    (<["image1FileName" := VStr "dhk.png"]>
    (<["type" := VInt 6]> ∅))))))))))) in
  let effect_data :=
    if truthy (VStr (audio_var f))
    then <["audioFileName" := VStr (audio_var f)]> effect_data else effect_data in
  if loop_var f then <["loop" := VBool true]> effect_data else effect_data.

(** The entry written over an existing one. *)
Definition updated_effect (f : form) (old_effect : obj) : obj :=
  let effect_data := <["text" := VStr (name_var f)]> old_effect in
  let effect_data :=
    if truthy (VStr (audio_var f))
    then <["audioFileName" := VStr (audio_var f)]> effect_data
    else pop "audioFileName" effect_data in
  if loop_var f then <["loop" := VBool true]> effect_data
  else pop "loop" effect_data.

(** The first key of [d] bound to [v], in insertion order. *)
Fixpoint first_key_of (d : dict) (v : Z) : option Z :=
  match d with
  | [] => None
  | (k, v') :: d' => if v' =? v then Some k else first_key_of d' v
  end.

Definition save_alarm (index : Z) (f : form) (self : t) : result (t * verdict) :=
  let seconds := Utils.time_to_seconds (time_var f) in
  if seconds <? 0 then Ok (self, Rejected)
  else if 0 <=? index then
    old_alarm ← list_index (alarms self) index;
    let type6_index := type6_index old_alarm in
    let actual_index := actual_index old_alarm in
    old_effect ← list_index (type6_effects self) type6_index;
    let effect_data := updated_effect f old_effect in
    let cm := ConfigManager.set_type6_effect type6_index effect_data (config_manager self) in
    let trigger :=
      <["effectIndices" := VList [actual_index]]>
      (<["triggerAtSecondOfDay" := encode seconds (enabled_var f)]> (trigger old_alarm)) in
    let alarm_data :=
      {| seconds := seconds;
         enabled := enabled_var f;
         name := VStr (name_var f);
         audio_file := VStr (audio_var f);
         loop := VBool (loop_var f);
         type6_index := type6_index;
         actual_index := actual_index;
         trigger := trigger;
         trigger_index := trigger_index old_alarm |} in
    Ok (with_alarms (<[Z.to_nat index := alarm_data]> (alarms self)) (with_manager cm self),
        Closed)
  else
    let effect_data := new_effect f in
    let '(cm, actual_index) := ConfigManager.add_type6_effect effect_data (config_manager self) in
    let old_alarm_count := Z.of_nat (length (alarms self)) in
    self ← _load_data (with_manager cm self);
    match first_key_of (type6_to_actual_index self) actual_index with
    | Some type6_index =>
        let trigger : obj :=
          <["effectIndices" := VList [VInt actual_index]]>
          (<["triggerAtSecondOfDay" := encode seconds (enabled_var f)]> ∅) in
        let alarm_data :=
          {| seconds := seconds;
             enabled := enabled_var f;
             name := VStr (name_var f);
             audio_file := VStr (audio_var f);
             loop := VBool (loop_var f);
             type6_index := type6_index;
             actual_index := VInt actual_index;
             trigger := trigger;
             trigger_index := old_alarm_count |} in
        Ok (with_alarms (alarms self ++ [alarm_data]) self, Closed)
    | None => Ok (self, Closed)
    end.

(** The loop of [_remove_time_trigger]: pop the first entry that compares
    equal to [time_trigger] on the two fields, then [break]. *)
Definition same_trigger (time_trigger trigger : obj) : bool :=
  py_eq (get trigger "triggerAtSecondOfDay") (get time_trigger "triggerAtSecondOfDay")
  && py_eq (get trigger "effectIndices") (get time_trigger "effectIndices").

Fixpoint pop_first (p : obj -> bool) (triggers : list obj) : list obj :=
  match triggers with
  | [] => []
  | trigger :: rest => if p trigger then rest else trigger :: pop_first p rest
  end.

Definition _remove_time_trigger (trigger_index : Z) (self : t) : t :=
  let cm := config_manager self in
  if ConfigManager.no_data cm then self
  else match ConfigManager.config_data cm with
       | Some d =>
           match default [] (meshes d) with
           | [] => self
           | m0 :: rest =>
               match specialEffectTriggers m0 with
               | Some triggers =>
                   let time_triggers := filter (fun t => is_time_trigger t) triggers in
                   if (0 <=? trigger_index)
                      && (trigger_index <? Z.of_nat (length time_triggers)) then
                     match time_triggers !! Z.to_nat trigger_index with
                     | Some time_trigger =>
                         let triggers' := pop_first (same_trigger time_trigger) triggers in
                         with_manager
                           (ConfigManager.with_data
                              (Some (with_meshes (Some (set_triggers triggers' m0 :: rest)) d))
                              cm)
                           self
                     | None => self
                     end
                   else self
               | None => self
               end
           end
       | None => self
       end.

(** [_delete_alarm]: [selection] is the selected row, if any, and
    [confirmed] the answer to the confirmation box. *)
Definition _delete_alarm (selection : option nat) (confirmed : bool) (self : t) : result t :=
  match selection with
  | None => Ok self
  | Some index =>
      if confirmed then
        alarm ← list_index (alarms self) (Z.of_nat index);
        let self := _remove_time_trigger (trigger_index alarm) self in
        let type6_index := type6_index alarm in
        let self :=
          with_manager (ConfigManager.remove_type6_effect type6_index (config_manager self))
            self in
        _load_data self
      else Ok self
  end.

(** The trigger [_save_alarms] writes for one alarm, if its
    [type6_index] still has an entry in the recomputed dictionary. *)
Definition saved_trigger (type6_to_actual_index : dict) (alarm : alarm) : option obj :=
  let seconds := seconds alarm in
  let seconds := if negb (enabled alarm) then seconds + 100000 else seconds in
  let actual_index := default (-1) (dict_lookup type6_to_actual_index (type6_index alarm)) in
  if 0 <=? actual_index then
    Some (<["effectIndices" := VList [VInt actual_index]]>
          (<["triggerAtSecondOfDay" := VStr (str seconds)]> (trigger alarm)))
  else None.

Definition _save_alarms (w : ConfigManager.write_outcome) (self : t) : result (t * bool) :=
  match ConfigManager.config_data (config_manager self) with
  | None => Raise AttributeError
  | Some d =>
      let all_effects := default [] (specialEffectLibrary d) in
      let type6_to_actual_index := fst (project all_effects) in
      let triggers := omap (saved_trigger type6_to_actual_index) (alarms self) in
      let cm := ConfigManager.set_time_triggers triggers (config_manager self) in
      let '(cm, saved) := ConfigManager.save_config w cm in
      if saved : bool then
        self ← _load_data (with_manager cm self);
        Ok (self, true)
      else Ok (with_manager cm self, false)
  end.

End AlarmInterface.

(** ** note_interface.py *)

Module NoteInterface.

(** [self.notes] is either the list object stored under ["notes"] in the
    manager's document, so that a write through one is seen through the
    other, or a list of its own. *)
Inductive notes_ref :=
| Shared
| Own (l : list obj).

Record t := Make {
  config_manager : ConfigManager.t;
  notes_ref_of : notes_ref
}.

(** The list [self.notes] denotes. *)
Definition notes_of (self : t) : list obj :=
  match notes_ref_of self with
  | Shared => default [] (ConfigManager.config_data (config_manager self) ≫= notes)
  | Own l => l
  end.

(** Writing the elements of [self.notes] in place. *)
Definition write_notes (l : list obj) (self : t) : t :=
  match notes_ref_of self with
  | Shared =>
      {| config_manager :=
           ConfigManager.with_data
             (with_notes (Some l) <$> ConfigManager.config_data (config_manager self))
             (config_manager self);
         notes_ref_of := Shared |}
  | Own _ => {| config_manager := config_manager self; notes_ref_of := Own l |}
  end.

(** The body of the loop of [_load_data]. *)
Definition ensure_visible (note : obj) : obj :=
  if negb (has_key "visible" note) then <["visible" := VBool true]> note else note.

Definition _load_data (self : t) : t :=
  let '(ns, shared) := ConfigManager.get_notes (config_manager self) in
  let self :=
    {| config_manager := config_manager self;
       notes_ref_of := if shared : bool then Shared else Own ns |} in
  write_notes (ensure_visible <$> notes_of self) self.

(** Opening the window on a manager: [__init__]. *)
Definition init (cm : ConfigManager.t) : t :=
  _load_data {| config_manager := cm; notes_ref_of := Own [] |}.

(** The mark [_refresh_note_list] shows for a note. *)
Definition shown_visible (note : obj) : bool :=
  truthy (get_default note "visible" (VBool true)).

Definition _save_notes (w : ConfigManager.write_outcome) (self : t) : t * bool :=
  let l := notes_of self in
  let cm := ConfigManager.set_notes l (config_manager self) in
  let self :=
    {| config_manager := cm;
       notes_ref_of := if ConfigManager.no_data (config_manager self) then Own l else Shared |} in
  let '(cm, saved) := ConfigManager.save_config w cm in
  ({| config_manager := cm; notes_ref_of := notes_ref_of self |}, saved).

(** The characters [str.strip()] removes from ASCII text. *)
Definition is_strip_space (c : ascii) : bool :=
  let k := Z.of_nat (nat_of_ascii c) in
  ((9 <=? k) && (k <=? 13)) || ((28 <=? k) && (k <=? 32)).

Fixpoint strip_left (s : string) : string :=
  match s with
  | String c s' => if is_strip_space c then strip_left s' else s
  | EmptyString => s
  end.

Fixpoint strip_right (s : string) : string :=
  match s with
  | String c s' =>
      let r := strip_right s' in
      if is_strip_space c && bool_decide (r = EmptyString) then EmptyString else String c r
  | EmptyString => s
  end.

(** [s.strip()] *)
Definition strip (s : string) : string := strip_right (strip_left s).

(** What the user left in the edit window of a note: the check box and
    the content of the text widget as [get("1.0", tk.END)] returns it. *)
Record form := Form {
  visible_var : bool;
  text_widget : string
}.

(** How an edit ends: no window was opened, the warning was shown and the
    window is still open, or the window was closed. *)
Inductive verdict := NotOpened | Refused | Closed.

(** The note a new note starts from. *)
Definition blank_note : obj :=
  <["scale" := VFloat (Qmake 1 2)]>
  (<["text" := VStr ""]>
  (<["backgroundImage" := VStr "note.png"]>
  (<["visible" := VBool true]> ∅))).

(** The note [save_note] stores, from the note the window was opened on. *)
Definition note_data (note : obj) (f : form) (text_content : string) : obj :=
  <["scale" := get_default note "scale" (VFloat (Qmake 1 2))]>
  (<["text" := VStr text_content]>
  (<["backgroundImage" := get_default note "backgroundImage" (VStr "note.png")]>
  (<["visible" := VBool (visible_var f)]> ∅))).

(** [_edit_note] followed by the OK button: [index = -1] adds a note. *)
Definition _edit_note (index : Z) (f : form) (self : t) : result (t * verdict) :=
  note ← (if 0 <=? index then list_index (notes_of self) index else Ok blank_note);
  let text_content := strip (text_widget f) in
  if bool_decide (text_content = EmptyString) then Ok (self, Refused)
  else
    let note_data := note_data note f text_content in
    if 0 <=? index
    then Ok (write_notes (<[Z.to_nat index := note_data]> (notes_of self)) self, Closed)
    else Ok (write_notes (notes_of self ++ [note_data]) self, Closed).

(** [_edit_selected_note]: [index] is the row number shown, less one. *)
Definition _edit_selected_note (selection : option Z) (f : form) (self : t)
  : result (t * verdict) :=
  match selection with
  | None => Ok (self, NotOpened)
  | Some index =>
      if (0 <=? index) && (index <? Z.of_nat (length (notes_of self)))
      then _edit_note index f self
      else Ok (self, NotOpened)
  end.

(** [_delete_note] *)
Definition _delete_note (selection : option Z) (confirmed : bool) (self : t) : t :=
  match selection with
  | None => self
  | Some index =>
      if confirmed then
        if (0 <=? index) && (index <? Z.of_nat (length (notes_of self)))
        then write_notes (delete (Z.to_nat index) (notes_of self)) self
        else self
      else self
  end.

End NoteInterface.

(** ** Predicates used in the statements *)

(** The text of a number starts with a digit. *)
Definition starts_with_digit (s : string) : Prop :=
  exists d s', 0 <= d < 10 /\ s = String (digit_char d) s'.

(** A value that [int()] refuses. *)
Definition unparseable (v : value) : Prop := is_ok (int v) = false.



(** The dictionary that binds 0, 1, 2, ... to the elements of [ps]. *)
Definition dict_of (ps : list nat) : dict :=
  (fun kp => (Z.of_nat (fst kp), Z.of_nat (snd kp))) <$> enumerate ps.

(** The trigger array of the first mesh, as the manager holds it. *)
Definition trigger_array (cm : ConfigManager.t) : list obj :=
  match ConfigManager.config_data cm with
  | Some d =>
      match default [] (meshes d) with
      | m0 :: _ => ConfigManager.triggers_of m0
      | [] => []
      end
  | None => []
  end.

(** The effect library, as the manager holds it. *)
Definition library (cm : ConfigManager.t) : list obj :=
  default [] (ConfigManager.config_data cm ≫= specialEffectLibrary).

(** The manager holds a non-empty document with a first mesh. *)
Definition has_mesh (cm : ConfigManager.t) : bool :=
  negb (ConfigManager.no_data cm) &&
  match ConfigManager.config_data cm with
  | Some d => negb (bool_decide (default [] (meshes d) = []))
  | None => false
  end.

(** Extract the time triggers, then rebuild the array from them. *)
Definition resave (cm : ConfigManager.t) : ConfigManager.t :=
  ConfigManager.set_time_triggers (ConfigManager.get_time_triggers cm) cm.

(** Two entries that differ at most in the three fields an edit writes. *)
Definition agree_off_edit (e1 e2 : obj) : Prop :=
  forall k : string,
    k <> "text"%string -> k <> "audioFileName"%string -> k <> "loop"%string ->
    e1 !! k = e2 !! k.

(** The session is coherent: the cached list of type-6 effects follows the
    type-6 entries of the library up to the edited fields, and every
    view-record points into it. *)
Definition coherent (self : AlarmInterface.t) : Prop :=
  Forall2 agree_off_edit (AlarmInterface.type6_effects self)
    (filter (fun e : obj => is_type6 e) (library (AlarmInterface.config_manager self))) /\
  Forall (fun a => 0 <= AlarmInterface.type6_index a
                     < Z.of_nat (length (AlarmInterface.type6_effects self)))
         (AlarmInterface.alarms self).



(** What the list shows of a view-record. *)
Definition summary (a : AlarmInterface.alarm) : Z * bool * value * value * value :=
  (AlarmInterface.seconds a, AlarmInterface.enabled a, AlarmInterface.name a,
   AlarmInterface.audio_file a, AlarmInterface.loop a).

(** The sessions that opening the window and then editing, deleting and
    saving can lead to, as long as no run raises and the manager's
    document is not loaded anew from outside the window. *)
Inductive reachable : AlarmInterface.t -> Prop :=
| reach_init cm self :
    AlarmInterface.init cm = Ok self -> reachable self
| reach_save_alarm self index f self' v :
    reachable self ->
    AlarmInterface.save_alarm index f self = Ok (self', v) -> reachable self'
| reach_delete_alarm self selection confirmed self' :
    reachable self ->
    AlarmInterface._delete_alarm selection confirmed self = Ok self' -> reachable self'
| reach_save_alarms self w self' saved :
    reachable self ->
    AlarmInterface._save_alarms w self = Ok (self', saved) -> reachable self'.

(** ** Sample documents and sessions *)

(** A document with one alarm-kind entry and one time trigger whose time
    field is not a number. *)
Definition doc_bad_time : document :=
  {| notes := None;
     meshes := Some [ {| specialEffectTriggers :=
                           Some [ <["effectIndices" := VList [VInt 0]]>
                                  (<["triggerAtSecondOfDay" := VStr "soon"]> ∅) ];
                         mesh_rest := ∅ |} ];
     specialEffectLibrary := Some [ <["text" := VStr "A"]> (<["type" := VInt 6]> ∅) ];
     doc_rest := ∅ |}.

Definition manager_on (d : document) : ConfigManager.t :=
  {| ConfigManager.config_path := Some "config.json"%string;
     ConfigManager.config_data := Some d;
     ConfigManager.disk := Some d |}.

Definition fresh_alarm_window (cm : ConfigManager.t) : AlarmInterface.t :=
  {| AlarmInterface.config_manager := cm;
     AlarmInterface.alarms := [];
     AlarmInterface.type6_effects := [];
     AlarmInterface.type6_to_actual_index := [];
     AlarmInterface.trigger_to_alarm_map := [] |}.

(** The state a run ends in, or [dflt] after an exception. *)
Definition run_or {A} (dflt : A) (r : result A) : A :=
  match r with Ok a => a | Raise _ => dflt end.

Definition view_bad_time : AlarmInterface.t :=
  run_or (fresh_alarm_window (manager_on doc_bad_time))
         (AlarmInterface.init (manager_on doc_bad_time)).

Definition alarm_bad_time : AlarmInterface.alarm :=
  {| AlarmInterface.seconds := 0;
     AlarmInterface.enabled := true;
     AlarmInterface.name := VStr "A";
     AlarmInterface.audio_file := VStr "";
     AlarmInterface.loop := VBool false;
     AlarmInterface.type6_index := 0;
     AlarmInterface.actual_index := VInt 0;
     AlarmInterface.trigger :=
       <["effectIndices" := VList [VInt 0]]> (<["triggerAtSecondOfDay" := VStr "soon"]> ∅);
     AlarmInterface.trigger_index := 0 |}.


Definition effect_of (kind : Z) (text : string) : obj :=
  <["text" := VStr text]> (<["type" := VInt kind]> ∅).

Definition time_trigger_of (time : string) (ref : Z) : obj :=
  <["effectIndices" := VList [VInt ref]]> (<["triggerAtSecondOfDay" := VStr time]> ∅).

Definition touch_trigger : obj := <["effectIndices" := VList [VInt 0]]> ∅.

Definition doc_of (lib triggers : list obj) : document :=
  {| notes := None;
     meshes := Some [ {| specialEffectTriggers := Some triggers; mesh_rest := ∅ |} ];
     specialEffectLibrary := Some lib;
     doc_rest := ∅ |}.

(** The library and time triggers of the scenario of the specification,
    behind a trigger of another kind. *)
Definition doc_scenario : document :=
  doc_of [effect_of 1 "other"; effect_of 6 "A"; effect_of 6 "B"]
         [touch_trigger; time_trigger_of "3600" 1; time_trigger_of "102000" 2].

Definition view_scenario : AlarmInterface.t :=
  run_or (fresh_alarm_window (manager_on doc_scenario))
         (AlarmInterface.init (manager_on doc_scenario)).




Definition form_tea : AlarmInterface.form :=
  {| AlarmInterface.time_var := "07:30";
     AlarmInterface.enabled_var := true;
     AlarmInterface.name_var := "Tea";
     AlarmInterface.audio_var := "";
     AlarmInterface.loop_var := true |}.

(** The session after the first row of the scenario was edited. *)
Definition view_edited : AlarmInterface.t :=
  match AlarmInterface.save_alarm 0 form_tea view_scenario with
  | Ok (s, _) => s
  | Raise _ => view_scenario
  end.



(** The session after the first row of the fresh scenario was deleted. *)
Definition view_deleted : AlarmInterface.t :=
  run_or view_scenario (AlarmInterface._delete_alarm (Some 0%nat) true view_scenario).

(** A library of three alarms, each with its trigger. *)
Definition doc_three : document :=
  doc_of [effect_of 6 "A"; effect_of 6 "B"; effect_of 6 "C"]
         [time_trigger_of "100" 0; time_trigger_of "200" 1; time_trigger_of "300" 2].

Definition view_three : AlarmInterface.t :=
  run_or (fresh_alarm_window (manager_on doc_three))
         (AlarmInterface.init (manager_on doc_three)).

Definition view_three_deleted : AlarmInterface.t :=
  run_or view_three (AlarmInterface._delete_alarm (Some 0%nat) true view_three).

(** Two notes, the first without a [visible] field. *)
Definition note_plain : obj := <["text" := VStr "milk"]> ∅.
Definition note_hidden : obj := <["visible" := VBool false]> (<["text" := VStr "eggs"]> ∅).

Definition doc_notes : document :=
  {| notes := Some [note_plain; note_hidden];
     meshes := None; specialEffectLibrary := None; doc_rest := ∅ |}.

(** ** Further predicates *)

(** No colon occurs in the text. *)
Fixpoint colon_free (s : string) : bool :=
  match s with
  | String c s' => negb (Ascii.eqb c ":") && colon_free s'
  | EmptyString => true
  end.

(** The note sessions that opening the window and then editing, deleting
    and saving can lead to, as long as the manager's document is not
    loaded anew from outside the window. *)
Inductive note_reachable : NoteInterface.t -> Prop :=
| nreach_init cm : note_reachable (NoteInterface.init cm)
| nreach_edit self index f self' v :
    note_reachable self ->
    NoteInterface._edit_note index f self = Ok (self', v) -> note_reachable self'
| nreach_delete self selection confirmed :
    note_reachable self ->
    note_reachable (NoteInterface._delete_note selection confirmed self)
| nreach_save self w :
    note_reachable self -> note_reachable (fst (NoteInterface._save_notes w self)).

(** A shared list is the one under ["notes"]. *)
Definition shared_is_stored (self : NoteInterface.t) : Prop :=
  NoteInterface.notes_ref_of self = NoteInterface.Shared ->
  exists d ns,
    ConfigManager.config_data (NoteInterface.config_manager self) = Some d /\
    notes d = Some ns.

(** A shared list of notes is the one under ["notes"], and every note
    shown has a [visible] field. *)
Definition note_coherent (self : NoteInterface.t) : Prop :=
  (NoteInterface.notes_ref_of self = NoteInterface.Shared ->
   exists d ns,
     ConfigManager.config_data (NoteInterface.config_manager self) = Some d /\
     notes d = Some ns) /\
  Forall (fun note : obj => is_Some (note !! "visible")) (NoteInterface.notes_of self).

(** A session with two notes, and what the user types over the first. *)
Definition note_view : NoteInterface.t := NoteInterface.init (manager_on doc_notes).


(** The shapes of an [effectIndices] field on which the loop body of
    [_load_data] does not raise.  A field that is false in a condition is
    skipped.  Otherwise it must have a length and a first element, and the
    first element must be an integer, or have itself a first element that
    can be a dictionary key. *)
Definition key_ok (y : value) : bool :=
  match y with
  | VList _ => false
  | _ => true
  end.






(** The edited session after a save that succeeded. *)
Definition view_edited_saved : AlarmInterface.t :=
  match AlarmInterface._save_alarms ConfigManager.Written view_edited with
  | Ok (s, _) => s
  | Raise _ => view_edited
  end.

(** The fresh scenario after a save that succeeded. *)
Definition view_scenario_saved : AlarmInterface.t :=
  match AlarmInterface._save_alarms ConfigManager.Written view_scenario with
  | Ok (s, _) => s
  | Raise _ => view_scenario
  end.

(** The fresh scenario after an alarm was added. *)
Definition view_scenario_added : AlarmInterface.t :=
  match AlarmInterface.save_alarm (-1) form_tea view_scenario with
  | Ok (s, _) => s
  | Raise _ => view_scenario
  end.

(** What the alarm window has no business with: the path, the notes, the
    other top-level fields, the other fields of every mesh, the triggers of
    the meshes after the first, and the library entries of other kinds. *)
Definition non_alarm_part (cm : ConfigManager.t)
  : option string
    * option (option (list obj) * obj * option (list obj) * list (option (list obj)))
    * list obj :=
  (ConfigManager.config_path cm,
   (fun d : document =>
      (notes d, doc_rest d,
       (fun ms : list mesh => mesh_rest <$> ms) <$> meshes d,
       specialEffectTriggers <$> tail (default [] (meshes d))))
     <$> ConfigManager.config_data cm,
   filter (fun e : obj => negb (is_type6 e)) (library cm)).

(** The triggers of the first mesh that are not time triggers. *)
Definition non_time_triggers (cm : ConfigManager.t) : list obj :=
  filter (fun t : obj => negb (is_time_trigger t)) (trigger_array cm).

(** One action of the user in the alarm window; the flag tells a deletion
    from the others. *)
Inductive window_step : bool -> AlarmInterface.t -> AlarmInterface.t -> Prop :=
| step_save_alarm self index f self' v :
    AlarmInterface.save_alarm index f self = Ok (self', v) ->
    window_step false self self'
| step_delete_alarm self selection confirmed self' :
    AlarmInterface._delete_alarm selection confirmed self = Ok self' ->
    window_step true self self'
| step_save_alarms self w self' saved :
    AlarmInterface._save_alarms w self = Ok (self', saved) ->
    window_step false self self'.

(** * Properties *)

(** ** The built-ins on sample inputs *)

Example int_skips_space_sign_underscore : int (VStr " +1_0 ") = Ok 10.
Proof. reflexivity. Qed.

Example int_refuses_double_underscore : int (VStr "1__0") = Raise ValueError.
Proof. reflexivity. Qed.

Example int_refuses_inner_space : int (VStr "- 5") = Raise ValueError.
Proof. reflexivity. Qed.

Example int_of_null : int VNone = Raise TypeError.
Proof. reflexivity. Qed.

Example int_truncates_float : int (VFloat (Qmake (-7) 2)) = Ok (-3).
Proof. reflexivity. Qed.

Example str_of_negative : str (-120) = "-120"%string.
Proof. reflexivity. Qed.

Example split_keeps_empty_parts : split ":" "8::5" = ["8"; ""; "5"]%string.
Proof. reflexivity. Qed.

Example bool_equals_int : py_eq (VList [VBool true]) (VList [VInt 1]) = true.
Proof. reflexivity. Qed.

Example float_six_is_type6 : is_type6 (<["type" := VFloat (Qmake 12 2)]> ∅) = true.
Proof. reflexivity. Qed.

(** The scenario of the specification: the view of the two time
    triggers. *)
Example scenario_view :
  summary <$> AlarmInterface.alarms view_scenario
  = [(3600, true, VStr "A", VStr "", VBool false);
     (2000, false, VStr "B", VStr "", VBool false)].
Proof. vm_compute. reflexivity. Qed.

(** ** The exception monad *)

Lemma bind_Ok {A B} (m : result A) (k : A -> result B) (b : B) :
  m ≫= k = Ok b -> exists a, m = Ok a /\ k a = Ok b.
Proof. destruct m as [a | e]; [eauto | discriminate]. Qed.

(** Split a hypothesis [m ≫= k = Ok b] into its two steps, repeatedly. *)
Ltac inv_bind H :=
  repeat match type of H with
         | _ ≫= _ = Ok _ =>
             let x := fresh "x" in
             let Hx := fresh "Hx" in
             apply bind_Ok in H as (x & Hx & H)
         | (if ?c then _ else _) = Ok _ =>
             let E := fresh "E" in destruct c eqn:E; try discriminate H
         | Ok _ = Ok _ => injection H as H
         end.

(** ** Decimal text and [int()] *)

Section Decimal.

Lemma digit_of_digit_char d : 0 <= d < 10 -> digit_of (digit_char d) = Some d.
Proof.
  intros Hd.
  assert (Hcases : d = 0 \/ d = 1 \/ d = 2 \/ d = 3 \/ d = 4 \/
                   d = 5 \/ d = 6 \/ d = 7 \/ d = 8 \/ d = 9) by lia.
  repeat (destruct Hcases as [-> | Hcases]; [reflexivity |]).
  subst d. reflexivity.
Qed.

Lemma digit_is_not_space c d : digit_of c = Some d -> is_space c = false.
Proof.
  unfold digit_of, is_space. intros H.
  destruct ((48 <=? _) && (_ <=? 57)) eqn:E; [| discriminate].
  apply andb_true_iff in E as [E1 E2].
  apply Z.leb_le in E1. apply Z.leb_le in E2.
  apply orb_false_iff. split.
  - apply andb_false_iff. right. apply Z.leb_gt. lia.
  - apply Z.eqb_neq. lia.
Qed.

Lemma scan_digits_from fuel : forall n acc,
  0 < n < 2 ^ Z.of_nat fuel ->
  scan_digits 0 false (digits_from fuel n acc) = scan_digits n false acc.
Proof.
  induction fuel as [| fuel IH]; intros n acc Hn.
  - simpl in Hn. lia.
  - cbn [digits_from].
    assert (Hmod : 0 <= n mod 10 < 10) by (apply Z.mod_pos_bound; lia).
    assert (Hsplit : n = 10 * (n / 10) + n mod 10) by (apply Z.div_mod; lia).
    destruct (n / 10 =? 0) eqn:Hq.
    + apply Z.eqb_eq in Hq. cbn [scan_digits].
      rewrite (digit_of_digit_char _ Hmod). f_equal. lia.
    + apply Z.eqb_neq in Hq.
      assert (0 <= n / 10) by (apply Z.div_pos; lia).
      rewrite IH.
      * cbn [scan_digits]. rewrite (digit_of_digit_char _ Hmod). f_equal. lia.
      * split; [lia |].
        rewrite Nat2Z.inj_succ, Z.pow_succ_r in Hn by lia.
        apply Z.div_lt_upper_bound; lia.
Qed.

Lemma digits_from_keeps_head fuel : forall n acc,
  starts_with_digit acc -> starts_with_digit (digits_from fuel n acc).
Proof.
  induction fuel as [| fuel IH]; intros n acc Hacc; [exact Hacc |].
  cbn [digits_from]. destruct (n / 10 =? 0).
  - exists (n mod 10), acc. split; [apply Z.mod_pos_bound; lia | reflexivity].
  - apply IH. exists (n mod 10), acc.
    split; [apply Z.mod_pos_bound; lia | reflexivity].
Qed.

Lemma str_nonneg_head n : starts_with_digit (str_nonneg n).
Proof.
  unfold str_nonneg. cbn [digits_from]. destruct (n / 10 =? 0).
  - exists (n mod 10), EmptyString. split; [apply Z.mod_pos_bound; lia | reflexivity].
  - apply digits_from_keeps_head. exists (n mod 10), EmptyString.
    split; [apply Z.mod_pos_bound; lia | reflexivity].
Qed.

Lemma scan_str_nonneg n :
  0 <= n -> scan_digits 0 false (str_nonneg n) = Some (n, EmptyString).
Proof.
  intros Hn. destruct (decide (n = 0)) as [-> | Hne]; [reflexivity |].
  unfold str_nonneg. rewrite scan_digits_from; [reflexivity |].
  split; [lia |].
  rewrite Nat2Z.inj_succ, Z2Nat.id by (apply Z.log2_nonneg).
  apply Z.log2_spec. lia.
Qed.

Lemma int_of_string_str_nonneg n :
  0 <= n -> int_of_string (str_nonneg n) = Some n.
Proof.
  intros Hn. destruct (str_nonneg_head n) as (d & s' & Hd & Hs).
  pose proof (scan_str_nonneg n Hn) as Hscan.
  pose proof (digit_of_digit_char d Hd) as Hdig.
  unfold int_of_string. rewrite Hs in *. cbn [lstrip].
  rewrite (digit_is_not_space _ _ Hdig).
  assert (Hplus : digit_char d <> "+"%char).
  { intros E. rewrite E in Hdig. discriminate. }
  assert (Hminus : digit_char d <> "-"%char).
  { intros E. rewrite E in Hdig. discriminate. }
  destruct (digit_char d) as [[] [] [] [] [] [] [] []] eqn:Ec;
    try congruence;
    rewrite Hdig; cbn [bool_decide decide_rel]; rewrite Hscan; reflexivity.
Qed.

Lemma int_of_string_minus s n :
  starts_with_digit s ->
  scan_digits 0 false s = Some (n, EmptyString) ->
  int_of_string (String "-" s) = Some (- n).
Proof.
  intros (d & s' & Hd & ->) Hscan.
  pose proof (digit_of_digit_char d Hd) as Hdig.
  unfold int_of_string.
  change (lstrip (String "-" (String (digit_char d) s')))
    with (String "-" (String (digit_char d) s')).
  cbv iota beta. rewrite Hdig, Hscan. reflexivity.
Qed.

(** [int(str(n)) == n] *)
Lemma int_str n : int (VStr (str n)) = Ok n.
Proof.
  unfold int, str. destruct (n <? 0) eqn:Hneg.
  - apply Z.ltb_lt in Hneg.
    rewrite (int_of_string_minus _ (- n)).
    + f_equal. lia.
    + apply str_nonneg_head.
    + apply scan_str_nonneg. lia.
  - apply Z.ltb_ge in Hneg. now rewrite int_of_string_str_nonneg.
Qed.

End Decimal.

(** ** The time field: encoding, decoding, fallback *)

Section Codec.

Import AlarmInterface.

Lemma decode_field_unparseable v :
  unparseable v -> decode_field v = Ok (0, true).
Proof.
  unfold unparseable, decode_field, int_or_zero. intros H.
  destruct v as [| b | n | q | s | l]; try discriminate H; try reflexivity.
  cbn in *. destruct (int_of_string s); [discriminate H | reflexivity].
Qed.

Lemma decode_field_encode seconds enabled :
  0 <= seconds < 100000 ->
  decode_field (encode seconds enabled) = Ok (seconds, enabled).
Proof.
  intros Hs. unfold decode_field, encode, int_or_zero.
  rewrite int_str. cbn. unfold decode. destruct enabled.
  - destruct (100000 <=? seconds) eqn:E; [apply Z.leb_le in E; lia | reflexivity].
  - destruct (100000 <=? seconds + 100000) eqn:E.
    + do 2 f_equal. lia.
    + apply Z.leb_gt in E. lia.
Qed.

(** C3. For every [seconds] in [0, 86400) and either value of [enabled],
    decoding the encoded time field gives back exactly
    [(seconds, enabled)]. *)
Theorem encode_decode_roundtrip (seconds : Z) (enabled : bool) :
  0 <= seconds < 86400 ->
  decode_field (encode seconds enabled) = Ok (seconds, enabled).
Proof. intros H. apply decode_field_encode. lia. Qed.

Lemma encode_decode_roundtrip_witness :
  0 <= 29100 < 86400 /\
  decode_field (encode 29100 false) = Ok (29100, false).
Proof. split; [lia | apply encode_decode_roundtrip; lia]. Defined.

(** What the loop body yields is built from the trigger it was given. *)
Lemma alarm_of_trigger_fields t6 inv idx trig a :
  alarm_of_trigger t6 inv idx trig = Ok (Some a) ->
  trigger a = trig /\
  trigger_index a = Z.of_nat idx /\
  decode_field (get_default trig "triggerAtSecondOfDay" (VStr "0"))
    = Ok (seconds a, enabled a) /\
  0 <= type6_index a < Z.of_nat (length t6).
Proof.
  unfold alarm_of_trigger. intros H.
  apply bind_Ok in H as ([s e] & Hd & H).
  inv_bind H. subst a. cbn.
  match goal with
  | E : (_ <=? _) && (_ <? _) = true |- _ =>
      apply andb_true_iff in E as [E1 E2];
      apply Z.leb_le in E1; apply Z.ltb_lt in E2
  end.
  auto.
Qed.

Lemma load_loop_elem t6 inv ts : forall al tm al' tm',
  load_loop t6 inv ts al tm = Ok (al', tm') ->
  forall a, a ∈ al' ->
    a ∈ al \/ exists idx trig, (idx, trig) ∈ ts /\
                               alarm_of_trigger t6 inv idx trig = Ok (Some a).
Proof.
  induction ts as [| [idx trig] ts IH]; intros al tm al' tm' H a Ha.
  - cbn in H. inversion H; subst. now left.
  - cbn in H. destruct (alarm_of_trigger t6 inv idx trig) as [[new |] |] eqn:Hone;
      cbn in H; [| | discriminate H].
    + destruct (IH _ _ _ _ H a Ha) as [Hin | (i & t & Hin & Hmk)].
      * apply elem_of_app in Hin as [Hin | Hin]; [now left |].
        apply list_elem_of_singleton in Hin as ->.
        right. exists idx, trig. split; [left | exact Hone].
      * right. exists i, t. split; [now right | exact Hmk].
    + destruct (IH _ _ _ _ H a Ha) as [Hin | (i & t & Hin & Hmk)]; [now left |].
      right. exists i, t. split; [now right | exact Hmk].
Qed.

(** Every alarm of a loaded view comes from one run of the loop body. *)
Lemma load_data_alarm self self' a :
  _load_data self = Ok self' -> a ∈ alarms self' ->
  exists inv idx,
    alarm_of_trigger (type6_effects self') inv idx (trigger a) = Ok (Some a).
Proof.
  unfold _load_data. intros H Ha.
  destruct (ConfigManager.config_data _) as [d |]; [| discriminate H].
  cbn in H.
  destruct (load_loop _ _ _ _ _) as [[al tm] |] eqn:Hloop; [| discriminate H].
  cbn in H. inversion H; subst; clear H. cbn in Ha. cbn [type6_effects].
  destruct (load_loop_elem _ _ _ _ _ _ _ Hloop a Ha) as [Hin | (i & t & _ & Hmk)].
  - inversion Hin.
  - pose proof (alarm_of_trigger_fields _ _ _ _ _ Hmk) as (<- & _).
    eauto.
Qed.

(** C10. A trigger whose time field [int()] refuses gives, in the loaded
    view, an alarm with [seconds = 0] and [enabled = true]. *)
Theorem unparseable_time_is_enabled_midnight (self self' : t) (a : alarm) :
  _load_data self = Ok self' ->
  a ∈ alarms self' ->
  unparseable (get_default (trigger a) "triggerAtSecondOfDay" (VStr "0")) ->
  seconds a = 0 /\ enabled a = true.
Proof.
  intros Hload Ha Hbad.
  destruct (load_data_alarm _ _ _ Hload Ha) as (inv & idx & Hmk).
  apply alarm_of_trigger_fields in Hmk as (_ & _ & Hdec & _).
  rewrite (decode_field_unparseable _ Hbad) in Hdec.
  inversion Hdec. auto.
Qed.

End Codec.

Lemma unparseable_time_is_enabled_midnight_witness :
  AlarmInterface.seconds alarm_bad_time = 0 /\
  AlarmInterface.enabled alarm_bad_time = true.
Proof.
  apply (unparseable_time_is_enabled_midnight
           (fresh_alarm_window (manager_on doc_bad_time)) view_bad_time).
  - vm_compute. reflexivity.
  - apply list_elem_of_lookup. exists 0%nat. vm_compute. reflexivity.
  - vm_compute. reflexivity.
Defined.

(** ** Validation of the time typed by the user *)

Section Validation.

Import AlarmInterface.





End Validation.

(** ** Insertion-ordered dictionaries *)

Section Dict.

Lemma dict_lookup_set k v d k' :
  dict_lookup (dict_set k v d) k' = if k =? k' then Some v else dict_lookup d k'.
Proof.
  induction d as [| [k0 v0] d IH]; cbn; [reflexivity |].
  destruct (k0 =? k) eqn:E0; cbn; [| rewrite IH];
    destruct (k =? k') eqn:E1; destruct (k0 =? k') eqn:E2; try reflexivity;
    exfalso;
    repeat match goal with
           | H : (_ =? _) = true |- _ => apply Z.eqb_eq in H
           | H : (_ =? _) = false |- _ => apply Z.eqb_neq in H
           end; lia.
Qed.

(** Binding a key that is not there yet appends the pair. *)
Lemma dict_set_fresh k v d :
  Forall (fun kv => fst kv <> k) d -> dict_set k v d = d ++ [(k, v)].
Proof.
  induction 1 as [| [k0 v0] d Hne _ IH]; cbn; [reflexivity |].
  cbn in Hne. destruct (k0 =? k) eqn:E; [apply Z.eqb_eq in E; contradiction |].
  now rewrite IH.
Qed.

Lemma dict_lookup_elem d k v : dict_lookup d k = Some v -> (k, v) ∈ d.
Proof.
  induction d as [| [k0 v0] d IH]; cbn; [discriminate |].
  destruct (k0 =? k) eqn:E.
  - apply Z.eqb_eq in E as ->. intros [= ->]. left.
  - intros H. right. now apply IH.
Qed.

End Dict.

(** ** The projection of the library onto its alarm-kind entries *)

Section Projection.

Import AlarmInterface.

Lemma enumerate_from_app {A} (l1 l2 : list A) : forall i,
  enumerate_from i (l1 ++ l2)
  = enumerate_from i l1 ++ enumerate_from (i + length l1) l2.
Proof.
  induction l1 as [| x l1 IH]; intros i; cbn.
  - now rewrite Nat.add_0_r.
  - rewrite IH. do 3 f_equal. lia.
Qed.

Lemma enumerate_from_length {A} (l : list A) i :
  length (enumerate_from i l) = length l.
Proof. revert i. induction l; intros i; cbn; auto. Qed.

Lemma enumerate_from_lookup {A} (l : list A) : forall i n,
  enumerate_from i l !! n = (fun x => ((i + n)%nat, x)) <$> l !! n.
Proof.
  induction l as [| x l IH]; intros i [| n]; cbn; try reflexivity.
  - now rewrite Nat.add_0_r.
  - rewrite IH. destruct (l !! n); cbn; [| reflexivity]. do 2 f_equal. lia.
Qed.

Lemma filter_enumerate_length (l : list obj) : forall i,
  length (filter (fun ie : nat * obj => is_type6 (snd ie)) (enumerate_from i l))
  = length (filter (fun e : obj => is_type6 e) l).
Proof.
  induction l as [| x l IH]; intros i; [reflexivity |].
  cbn [enumerate_from]. rewrite !filter_cons. cbn [snd].
  destruct (decide (is_type6 x)); cbn [length]; now rewrite IH.
Qed.

Lemma type6_indices_snoc l x :
  type6_indices (l ++ [x])
  = type6_indices l ++ (if is_type6 x then [length l] else []).
Proof.
  unfold type6_indices, enumerate. rewrite enumerate_from_app, filter_app, fmap_app.
  f_equal. cbn [enumerate_from]. rewrite filter_cons, filter_nil. cbn [snd].
  rewrite Nat.add_0_l. destruct (is_type6 x); reflexivity.
Qed.

Lemma type6_indices_bound l : Forall (fun n => (n < length l)%nat) (type6_indices l).
Proof.
  induction l as [| x l IH] using rev_ind; [constructor |].
  rewrite type6_indices_snoc, length_app. cbn. apply Forall_app. split.
  - eapply Forall_impl; [exact IH |]. cbn. lia.
  - destruct (is_type6 x); repeat constructor. lia.
Qed.

Lemma type6_indices_NoDup l : NoDup (type6_indices l).
Proof.
  induction l as [| x l IH] using rev_ind; [constructor |].
  rewrite type6_indices_snoc. apply NoDup_app. split; [exact IH |]. split.
  - intros n Hn Hn'. destruct (is_type6 x); [| inversion Hn'].
    apply list_elem_of_singleton in Hn' as ->.
    pose proof (type6_indices_bound l) as Hb.
    rewrite Forall_forall in Hb. specialize (Hb _ Hn). lia.
  - destruct (is_type6 x); [apply NoDup_singleton | constructor].
Qed.

Lemma dict_of_snoc ps n :
  dict_of (ps ++ [n]) = dict_of ps ++ [(Z.of_nat (length ps), Z.of_nat n)].
Proof.
  unfold dict_of, enumerate. now rewrite enumerate_from_app, fmap_app.
Qed.

Lemma dict_of_keys ps :
  Forall (fun kv => fst kv <> Z.of_nat (length ps)) (dict_of ps).
Proof.
  apply Forall_forall. intros [k v] Hin. cbn.
  apply list_elem_of_fmap in Hin as ([i n] & [= -> ->] & Hin).
  apply list_elem_of_lookup in Hin as [j Hj].
  unfold enumerate in Hj. rewrite enumerate_from_lookup in Hj.
  destruct (ps !! j) eqn:E; [| discriminate].
  apply lookup_lt_Some in E. cbn in Hj. injection Hj as <- _. cbn. lia.
Qed.

Lemma dict_of_lookup ps k :
  dict_lookup (dict_of ps) (Z.of_nat k) = Z.of_nat <$> ps !! k.
Proof.
  revert k. induction ps as [| n ps IH] using rev_ind; intros k; [reflexivity |].
  rewrite dict_of_snoc, <- (dict_set_fresh _ _ _ (dict_of_keys ps)).
  rewrite dict_lookup_set, IH.
  destruct (Z.of_nat (length ps) =? Z.of_nat k) eqn:E.
  - apply Z.eqb_eq, Nat2Z.inj in E as <-.
    now rewrite lookup_app_r, Nat.sub_diag by lia.
  - apply Z.eqb_neq in E.
    destruct (decide (k < length ps)%nat) as [Hlt | Hge].
    + now rewrite lookup_app_l by lia.
    + rewrite !lookup_ge_None_2; [reflexivity | | lia].
      rewrite length_app. cbn. lia.
Qed.

(** The scan of [_load_data] binds 0, 1, 2, ... to the positions of the
    alarm-kind entries, in order, and counts them. *)
Lemma project_spec l :
  project l = (dict_of (type6_indices l), Z.of_nat (length (type6_indices l))).
Proof.
  induction l as [| x l IH] using rev_ind; [reflexivity |].
  unfold project, enumerate in *.
  rewrite enumerate_from_app, foldl_app, IH. cbn.
  rewrite type6_indices_snoc. unfold project_step. cbn.
  destruct (is_type6 x).
  - rewrite dict_set_fresh by apply dict_of_keys.
    rewrite dict_of_snoc, length_app. cbn. f_equal. lia.
  - now rewrite app_nil_r.
Qed.

Lemma invert_snoc d k v : invert (d ++ [(k, v)]) = dict_set v k (invert d).
Proof. unfold invert. now rewrite foldl_app. Qed.

(** On a dictionary without repeated values the comprehension of
    [_load_data] is the inverse. *)
Lemma invert_lookup d k v :
  NoDup (snd <$> d) -> (k, v) ∈ d -> dict_lookup (invert d) v = Some k.
Proof.
  induction d as [| [k0 v0] d IH] using rev_ind; intros Hnd Hin; [inversion Hin |].
  rewrite invert_snoc, dict_lookup_set.
  rewrite fmap_app in Hnd. apply NoDup_app in Hnd as (Hnd & Hdisj & _).
  apply elem_of_app in Hin as [Hin | Hin].
  - destruct (v0 =? v) eqn:E; [| now apply IH].
    apply Z.eqb_eq in E as ->. exfalso.
    apply (Hdisj v); [| left].
    apply list_elem_of_fmap. now exists (k, v).
  - apply list_elem_of_singleton in Hin as [= -> ->]. now rewrite Z.eqb_refl.
Qed.

Lemma dict_of_values ps : snd <$> dict_of ps = Z.of_nat <$> ps.
Proof.
  induction ps as [| n ps IH] using rev_ind; [reflexivity |].
  now rewrite dict_of_snoc, !fmap_app, IH.
Qed.

(** The position of an entry among the alarm-kind entries. *)
Lemma type6_indices_middle (l1 l2 : list obj) e :
  is_type6 e = true ->
  type6_indices (l1 ++ e :: l2) !! length (filter (fun x : obj => is_type6 x) l1)
    = Some (length l1) /\
  filter (fun x : obj => is_type6 x) (l1 ++ e :: l2)
    !! length (filter (fun x : obj => is_type6 x) l1) = Some e.
Proof.
  intros He.
  assert (Ht : is_type6 e) by now apply Is_true_true.
  split.
  - unfold type6_indices, enumerate.
    rewrite enumerate_from_app, filter_app, fmap_app. cbn [enumerate_from].
    rewrite filter_cons_True by exact Ht.
    rewrite lookup_app_r; rewrite length_fmap, filter_enumerate_length; [| lia].
    now rewrite Nat.sub_diag.
  - rewrite filter_app, filter_cons_True by exact Ht.
    rewrite lookup_app_r by lia. now rewrite Nat.sub_diag.
Qed.

Lemma type6_indices_at (l : list obj) p e :
  l !! p = Some e -> is_type6 e = true ->
  type6_indices l !! length (filter (fun x : obj => is_type6 x) (take p l)) = Some p /\
  filter (fun x : obj => is_type6 x) l
    !! length (filter (fun x : obj => is_type6 x) (take p l)) = Some e.
Proof.
  intros Hp He.
  pose proof (type6_indices_middle (take p l) (drop (S p) l) e He) as H.
  rewrite (take_drop_middle _ _ _ Hp) in H.
  rewrite length_take_le in H; [exact H |].
  apply lookup_lt_Some in Hp. lia.
Qed.

(** C2. Every absolute position [p] that holds a type-6 entry is mapped
    by the inverse dictionary to its subsequence index [k] (the number of
    type-6 entries before [p], which is also the place of the entry in the
    list of type-6 effects), and the forward dictionary maps [k] back to
    [p]. *)
Theorem projection_roundtrip (all_effects : list obj) (p : nat) (e : obj) :
  all_effects !! p = Some e ->
  is_type6 e = true ->
  exists k : nat,
    dict_lookup (invert (fst (project all_effects))) (Z.of_nat p) = Some (Z.of_nat k) /\
    dict_lookup (fst (project all_effects)) (Z.of_nat k) = Some (Z.of_nat p) /\
    k = length (filter (fun x : obj => is_type6 x) (take p all_effects)) /\
    filter (fun x : obj => is_type6 x) all_effects !! k = Some e.
Proof.
  intros Hp He.
  destruct (type6_indices_at _ _ _ Hp He) as [Hidx Hfil].
  exists (length (filter (fun x : obj => is_type6 x) (take p all_effects))).
  rewrite project_spec. cbn [fst].
  assert (Hfwd : dict_lookup (dict_of (type6_indices all_effects))
                   (Z.of_nat (length (filter (fun x : obj => is_type6 x) (take p all_effects))))
                 = Some (Z.of_nat p)).
  { now rewrite dict_of_lookup, Hidx. }
  repeat split; auto.
  apply invert_lookup.
  - rewrite dict_of_values. apply NoDup_fmap; [apply Nat2Z.inj' |].
    apply type6_indices_NoDup.
  - now apply dict_lookup_elem.
Qed.

End Projection.

Lemma projection_roundtrip_witness :
  exists k : nat,
    dict_lookup (AlarmInterface.invert
                   (fst (AlarmInterface.project
                           [effect_of 1 "other"; effect_of 6 "A"; effect_of 6 "B"]))) 2
      = Some (Z.of_nat k) /\
    dict_lookup (fst (AlarmInterface.project
                        [effect_of 1 "other"; effect_of 6 "A"; effect_of 6 "B"]))
                (Z.of_nat k) = Some 2 /\
    k = 1%nat.
Proof.
  destruct (projection_roundtrip
              [effect_of 1 "other"; effect_of 6 "A"; effect_of 6 "B"] 2 (effect_of 6 "B"))
    as (k & Hb & Hf & Hk & _).
  - reflexivity.
  - vm_compute. reflexivity.
  - exists k. repeat split; [exact Hb | exact Hf |].
    rewrite Hk. vm_compute. reflexivity.
Defined.

(** ** Rebuilding the trigger array *)

Section Rebuild.

Import ConfigManager.

Lemma filter_all {A} (P : A -> Prop) `{!forall x, Decision (P x)} (l : list A) :
  Forall P l -> filter P l = l.
Proof.
  induction 1 as [| x l Hx _ IH]; [reflexivity |].
  now rewrite filter_cons_True, IH.
Qed.

Lemma filter_none {A} (P : A -> Prop) `{!forall x, Decision (P x)} (l : list A) :
  Forall (fun x => ~ P x) l -> filter P l = [].
Proof.
  induction 1 as [| x l Hx _ IH]; [reflexivity |].
  now rewrite filter_cons_False.
Qed.

Lemma filter_holds {A} (P : A -> Prop) `{!forall x, Decision (P x)} (l : list A) :
  Forall P (filter P l).
Proof. apply Forall_forall. intros x Hx. now apply list_elem_of_filter in Hx. Qed.

Lemma time_not_non_time (l : list obj) :
  Forall (fun t : obj => is_time_trigger t) l ->
  Forall (fun t : obj => ~ negb (is_time_trigger t)) l.
Proof.
  intros H. eapply Forall_impl; [exact H |].
  cbn. intros t Ht Hn. destruct (is_time_trigger t); auto.
Qed.

Lemma non_time_not_time (l : list obj) :
  Forall (fun t : obj => negb (is_time_trigger t)) l ->
  Forall (fun t : obj => ~ is_time_trigger t) l.
Proof.
  intros H. eapply Forall_impl; [exact H |].
  cbn. intros t Ht Hn. destruct (is_time_trigger t); auto.
Qed.

(** [has_mesh] exposes the document and its first mesh. *)
Lemma has_mesh_inv cm :
  has_mesh cm = true ->
  exists d m0 rest,
    config_data cm = Some d /\ no_data cm = false /\
    default [] (meshes d) = m0 :: rest.
Proof.
  unfold has_mesh. intros H. apply andb_true_iff in H as [Hd Hm].
  apply negb_true_iff in Hd.
  destruct (config_data cm) as [d |] eqn:E; [| discriminate].
  destruct (default [] (meshes d)) as [| m0 rest] eqn:Em; [discriminate |].
  eauto 6.
Qed.

Lemma no_mesh_set_time_triggers ts cm :
  has_mesh cm = false -> set_time_triggers ts cm = cm.
Proof.
  unfold has_mesh, set_time_triggers. intros H.
  destruct (no_data cm); [reflexivity |].
  destruct (config_data cm) as [d |]; [| reflexivity].
  destruct (default [] (meshes d)); [reflexivity | discriminate].
Qed.

Lemma trigger_array_set_time_triggers ts cm :
  has_mesh cm = true ->
  trigger_array (set_time_triggers ts cm)
  = filter (fun t : obj => negb (is_time_trigger t)) (trigger_array cm) ++ ts.
Proof.
  intros H. destruct (has_mesh_inv _ H) as (d & m0 & rest & Hd & Hn & Hm).
  unfold trigger_array, set_time_triggers. rewrite Hn, Hd, Hm. reflexivity.
Qed.

Lemma has_mesh_set_time_triggers ts cm :
  has_mesh (set_time_triggers ts cm) = has_mesh cm.
Proof.
  destruct (has_mesh cm) eqn:H; [| now rewrite no_mesh_set_time_triggers].
  destruct (has_mesh_inv _ H) as (d & m0 & rest & Hd & Hn & Hm).
  unfold set_time_triggers. rewrite Hn, Hd, Hm.
  unfold has_mesh, no_data, doc_is_empty. cbn. now destruct (notes d).
Qed.

Lemma get_time_triggers_array cm :
  get_time_triggers cm = filter (fun t : obj => is_time_trigger t) (trigger_array cm).
Proof.
  unfold get_time_triggers, trigger_array.
  destruct (no_data cm) eqn:Hn.
  - unfold no_data in Hn. destruct (config_data cm) as [d |]; [| reflexivity].
    unfold doc_is_empty in Hn. destruct (notes d), (meshes d); try discriminate.
    reflexivity.
  - destruct (config_data cm) as [d |]; [| reflexivity].
    destruct (default [] (meshes d)); reflexivity.
Qed.

(** Writing the same time triggers again changes nothing more. *)
Lemma set_time_triggers_twice ts ts' cm :
  Forall (fun t : obj => is_time_trigger t) ts ->
  set_time_triggers ts' (set_time_triggers ts cm) = set_time_triggers ts' cm.
Proof.
  intros Hts. destruct (has_mesh cm) eqn:H;
    [| now rewrite (no_mesh_set_time_triggers ts cm H)].
  destruct (has_mesh_inv _ H) as (d & m0 & rest & Hd & Hn & Hm).
  unfold set_time_triggers at 2. rewrite Hn, Hd, Hm.
  unfold set_time_triggers. rewrite Hn, Hd, Hm. cbn.
  assert (Hne : forall l, doc_is_empty (with_meshes (Some l) d) = false).
  { intros l. unfold doc_is_empty. cbn. now destruct (notes d). }
  rewrite Hne.
  rewrite filter_app, (filter_none _ ts) by now apply time_not_non_time.
  rewrite app_nil_r, filter_all by apply filter_holds.
  reflexivity.
Qed.

(** C6. [set_time_triggers] writes the non-time triggers first, in their
    original order, then the supplied triggers in the given order; and
    extracting the time triggers and rebuilding the array a second time
    gives the array of the first rebuild again, as does a second save of
    an unchanged set of time triggers. *)
Theorem rebuild_order_and_idempotence (cm : ConfigManager.t) (ts : list obj) :
  (has_mesh cm = true ->
     trigger_array (set_time_triggers ts cm)
     = filter (fun t : obj => negb (is_time_trigger t)) (trigger_array cm) ++ ts) /\
  resave (resave cm) = resave cm /\
  (Forall (fun t : obj => is_time_trigger t) ts ->
     get_time_triggers (set_time_triggers ts cm) = (if has_mesh cm then ts else get_time_triggers cm) /\
     resave (set_time_triggers ts cm) = set_time_triggers ts cm /\
     set_time_triggers ts (set_time_triggers ts cm) = set_time_triggers ts cm).
Proof.
  assert (Hget : forall ts0, Forall (fun t : obj => is_time_trigger t) ts0 ->
            get_time_triggers (set_time_triggers ts0 cm)
            = if has_mesh cm then ts0 else get_time_triggers cm).
  { intros ts0 Hts. destruct (has_mesh cm) eqn:H; [| now rewrite no_mesh_set_time_triggers].
    rewrite get_time_triggers_array, trigger_array_set_time_triggers by exact H.
    rewrite filter_app, filter_none, filter_all; auto.
    apply non_time_not_time, filter_holds. }
  assert (Hre : forall ts0, Forall (fun t : obj => is_time_trigger t) ts0 ->
            resave (set_time_triggers ts0 cm) = set_time_triggers ts0 cm).
  { intros ts0 Hts. unfold resave. rewrite Hget by exact Hts.
    rewrite set_time_triggers_twice by exact Hts.
    destruct (has_mesh cm) eqn:H; [reflexivity |].
    now rewrite !no_mesh_set_time_triggers by exact H. }
  split; [apply trigger_array_set_time_triggers |].
  split.
  - apply Hre. rewrite get_time_triggers_array. apply filter_holds.
  - intros Hts. split; [now apply Hget |]. split; [now apply Hre |].
    now apply set_time_triggers_twice.
Qed.

Lemma rebuild_order_and_idempotence_witness :
  trigger_array (set_time_triggers [time_trigger_of "28800" 1] (manager_on doc_scenario))
  = [touch_trigger; time_trigger_of "28800" 1] /\
  set_time_triggers [time_trigger_of "28800" 1]
    (set_time_triggers [time_trigger_of "28800" 1] (manager_on doc_scenario))
  = set_time_triggers [time_trigger_of "28800" 1] (manager_on doc_scenario).
Proof.
  destruct (rebuild_order_and_idempotence (manager_on doc_scenario)
              [time_trigger_of "28800" 1]) as (Horder & _ & Hsame).
  split.
  - rewrite Horder by (vm_compute; reflexivity). vm_compute. reflexivity.
  - apply Hsame. repeat constructor.
Defined.

End Rebuild.

(** ** Saving the alarms *)

Section Save.

Import AlarmInterface.

Lemma list_index_in_range {A} (l : list A) i :
  0 <= i < Z.of_nat (length l) ->
  exists x, list_index l i = Ok x /\ l !! Z.to_nat i = Some x.
Proof.
  intros Hi. unfold list_index.
  destruct (i <? 0) eqn:E; [apply Z.ltb_lt in E; lia |].
  assert (Hr : (0 <=? i) && (i <? Z.of_nat (length l)) = true).
  { apply andb_true_iff. split; [apply Z.leb_le | apply Z.ltb_lt]; lia. }
  rewrite Hr.
  destruct (l !! Z.to_nat i) as [x |] eqn:El; [eauto |].
  apply lookup_ge_None in El. lia.
Qed.





Lemma saved_trigger_spec fwd a :
  saved_trigger fwd a =
  match dict_lookup fwd (type6_index a) with
  | Some p =>
      if 0 <=? p then
        Some (<["effectIndices" := VList [VInt p]]>
              (<["triggerAtSecondOfDay" := encode (seconds a) (enabled a)]> (trigger a)))
      else None
  | None => None
  end.
Proof.
  unfold saved_trigger, encode.
  destruct (dict_lookup fwd (type6_index a)) as [p |]; cbn; [| reflexivity].
  destruct (0 <=? p); [| reflexivity]. now destruct (enabled a).
Qed.

Lemma saved_trigger_single_ref fwd a t :
  saved_trigger fwd a = Some t ->
  is_time_trigger t = true /\
  exists p, t !! "effectIndices" = Some (VList [VInt p]).
Proof.
  rewrite saved_trigger_spec.
  destruct (dict_lookup fwd (type6_index a)) as [p |]; [| discriminate].
  destruct (0 <=? p); [| discriminate]. intros [= <-]. split.
  - unfold is_time_trigger, has_key. apply bool_decide_eq_true.
    rewrite lookup_insert_ne by discriminate. rewrite lookup_insert_eq. eauto.
  - exists p. now rewrite lookup_insert_eq.
Qed.

Lemma type6_indices_elem (l : list obj) n :
  n ∈ type6_indices l -> exists e, l !! n = Some e /\ is_type6 e = true.
Proof.
  unfold type6_indices, enumerate. intros H.
  apply list_elem_of_fmap in H as ([i e] & -> & H).
  apply list_elem_of_filter in H as [He H]. cbn in He.
  apply list_elem_of_lookup in H as [j Hj].
  rewrite enumerate_from_lookup in Hj.
  destruct (l !! j) as [x |] eqn:E; [| discriminate].
  cbn in Hj. injection Hj as <- <-. exists x. split; [exact E |].
  now apply Is_true_true.
Qed.




Lemma save_config_data w cm :
  ConfigManager.config_data (fst (ConfigManager.save_config w cm))
  = ConfigManager.config_data cm.
Proof.
  unfold ConfigManager.save_config.
  destruct (_ || _); [reflexivity |]. now destruct w.
Qed.

Lemma get_time_triggers_no_mesh cm :
  has_mesh cm = false -> ConfigManager.get_time_triggers cm = [].
Proof.
  unfold has_mesh, ConfigManager.get_time_triggers. intros H.
  destruct (ConfigManager.no_data cm); [reflexivity |].
  destruct (ConfigManager.config_data cm) as [d |]; [| reflexivity].
  destruct (default [] (meshes d)); [reflexivity | discriminate].
Qed.

(** Loading does not touch the manager. *)
Lemma load_data_manager self self' :
  _load_data self = Ok self' -> config_manager self' = config_manager self.
Proof.
  unfold _load_data. intros H.
  destruct (ConfigManager.config_data _); [| discriminate].
  apply bind_Ok in H as (b & _ & [= <-]). reflexivity.
Qed.



End Save.

(** ** Editing an existing alarm *)

Section Update.

Import AlarmInterface.

Lemma filter_enumerate_snd (l : list obj) : forall i,
  snd <$> filter (fun ie : nat * obj => is_type6 (snd ie)) (enumerate_from i l)
  = filter (fun e : obj => is_type6 e) l.
Proof.
  induction l as [| x l IH]; intros i; [reflexivity |].
  cbn [enumerate_from]. rewrite !filter_cons. cbn [snd].
  destruct (decide (is_type6 x)); cbn [fmap list_fmap]; now rewrite <- (IH (S i)).
Qed.

Lemma insert_middle {A} (l1 l2 : list A) x y :
  <[length l1 := y]> (l1 ++ x :: l2) = l1 ++ y :: l2.
Proof.
  rewrite <- (Nat.add_0_r (length l1)). now rewrite insert_app_r.
Qed.

Lemma type6_indices_length (l : list obj) :
  length (type6_indices l) = length (filter (fun e : obj => is_type6 e) l).
Proof.
  unfold type6_indices, enumerate. now rewrite length_fmap, filter_enumerate_length.
Qed.

(** The [k]-th alarm-kind position and the [k]-th alarm-kind entry belong
    together. *)
Lemma type6_indices_lookup (l : list obj) k p :
  type6_indices l !! k = Some p ->
  exists e, l !! p = Some e /\ is_type6 e = true /\
            filter (fun x : obj => is_type6 x) l !! k = Some e /\
            k = length (filter (fun x : obj => is_type6 x) (take p l)).
Proof.
  intros Hk.
  destruct (type6_indices_elem l p) as (e & Hp & He).
  { apply list_elem_of_lookup. eauto. }
  destruct (type6_indices_at l p e Hp He) as [Hidx Hfil].
  assert (k = length (filter (fun x : obj => is_type6 x) (take p l))) as ->.
  { eapply NoDup_lookup; [apply type6_indices_NoDup | exact Hk | exact Hidx]. }
  eauto.
Qed.

(** Overwriting an alarm-kind entry with an alarm-kind entry moves no
    position and overwrites the same place of the filtered list. *)
Lemma type6_insert (l : list obj) p e e' :
  l !! p = Some e -> is_type6 e = true -> is_type6 e' = true ->
  type6_indices (<[p := e']> l) = type6_indices l /\
  filter (fun x : obj => is_type6 x) (<[p := e']> l)
  = <[length (filter (fun x : obj => is_type6 x) (take p l)) := e']>
      (filter (fun x : obj => is_type6 x) l).
Proof.
  intros Hp He He'.
  assert (Hlen : length (take p l) = p).
  { apply length_take_le. apply lookup_lt_Some in Hp. lia. }
  assert (Ht : is_type6 e) by now apply Is_true_true.
  assert (Ht' : is_type6 e') by now apply Is_true_true.
  pose proof (take_drop_middle _ _ _ Hp) as Hl.
  set (l1 := take p l) in *. set (l2 := drop (S p) l) in *.
  rewrite <- Hl, <- Hlen, insert_middle.
  split.
  - unfold type6_indices, enumerate.
    rewrite !enumerate_from_app, !filter_app, !fmap_app. cbn [enumerate_from].
    rewrite !filter_cons_True by assumption. reflexivity.
  - rewrite !filter_app, !filter_cons_True by assumption.
    now rewrite insert_middle.
Qed.

Lemma list_index_nonneg {A} (l : list A) i x :
  0 <= i -> list_index l i = Ok x ->
  l !! Z.to_nat i = Some x /\ i < Z.of_nat (length l).
Proof.
  unfold list_index. intros Hi H.
  destruct (i <? 0) eqn:E; [apply Z.ltb_lt in E; lia |].
  destruct ((0 <=? i) && (i <? Z.of_nat (length l))) eqn:Er; [| discriminate].
  apply andb_true_iff in Er as [_ Er]. apply Z.ltb_lt in Er.
  destruct (l !! Z.to_nat i); [| discriminate]. injection H as ->. auto.
Qed.

Lemma agree_off_edit_refl e : agree_off_edit e e.
Proof. intros k _ _ _. reflexivity. Qed.

Lemma updated_effect_fields f old_effect :
  updated_effect f old_effect !! "text" = Some (VStr (name_var f)) /\
  updated_effect f old_effect !! "audioFileName"
    = (if decide (audio_var f = ""%string) then None else Some (VStr (audio_var f))) /\
  updated_effect f old_effect !! "loop"
    = (if loop_var f then Some (VBool true) else None) /\
  agree_off_edit (updated_effect f old_effect) old_effect.
Proof.
  unfold updated_effect, truthy, pop, agree_off_edit.
  destruct (decide (audio_var f = ""%string)) as [Ha | Ha];
    [rewrite bool_decide_eq_true_2 by exact Ha
    | rewrite bool_decide_eq_false_2 by exact Ha];
    destruct (loop_var f); cbn [negb];
    repeat split; intros; simplify_map_eq; reflexivity.
Qed.

Lemma agree_off_edit_type6 e1 e2 :
  agree_off_edit e1 e2 -> is_type6 e1 = is_type6 e2.
Proof.
  intros H. unfold is_type6, get. now rewrite (H "type"%string).
Qed.

Lemma get_type6_effects_library cm :
  ConfigManager.get_type6_effects cm
  = filter (fun e : obj => is_type6 e) (library cm).
Proof.
  unfold ConfigManager.get_type6_effects, library.
  destruct (ConfigManager.no_data cm) eqn:Hn.
  - unfold ConfigManager.no_data in Hn.
    destruct (ConfigManager.config_data cm) as [d |]; [| reflexivity].
    unfold doc_is_empty in Hn. cbn.
    destruct (notes d), (meshes d), (specialEffectLibrary d); try discriminate.
    reflexivity.
  - destruct (ConfigManager.config_data cm) as [d |]; reflexivity.
Qed.

(** A freshly loaded view is coherent. *)
Lemma load_data_coherent self self' : _load_data self = Ok self' -> coherent self'.
Proof.
  intros Hload. split.
  - pose proof (load_data_manager _ _ Hload) as Hcm.
    unfold _load_data in Hload.
    destruct (ConfigManager.config_data _); [| discriminate].
    apply bind_Ok in Hload as (b & _ & [= <-]). cbn.
    rewrite get_type6_effects_library.
    apply Forall_Forall2_diag, Forall_forall. intros e _. apply agree_off_edit_refl.
  - apply Forall_forall. intros a Ha.
    destruct (load_data_alarm _ _ _ Hload Ha) as (inv & idx & Hmk).
    now apply alarm_of_trigger_fields in Hmk as (_ & _ & _ & Hr).
Qed.

(** The edit of an existing alarm in a coherent session. *)
Lemma save_alarm_update (self self' : t) (index : Z) (f : form) (a : alarm) :
  coherent self ->
  0 <= index ->
  alarms self !! Z.to_nat index = Some a ->
  save_alarm index f self = Ok (self', Closed) ->
  exists (d : document) (lib : list obj) (p : nat) (e e' : obj),
    ConfigManager.config_data (config_manager self) = Some d /\
    specialEffectLibrary d = Some lib /\
    type6_indices lib !! Z.to_nat (type6_index a) = Some p /\
    lib !! p = Some e /\
    config_manager self'
    = ConfigManager.with_data (Some (with_library (Some (<[p := e']> lib)) d))
        (config_manager self) /\
    e' !! "text" = Some (VStr (name_var f)) /\
    e' !! "audioFileName"
      = (if decide (audio_var f = ""%string) then None else Some (VStr (audio_var f))) /\
    e' !! "loop" = (if loop_var f then Some (VBool true) else None) /\
    agree_off_edit e' e /\
    coherent self'.
Proof.
  intros [Hcache Hrange] Hidx Ha H.
  unfold save_alarm in H.
  destruct (Utils.time_to_seconds (time_var f) <? 0); [discriminate |].
  assert (Hge : (0 <=? index) = true) by now apply Z.leb_le.
  rewrite Hge in H.
  apply bind_Ok in H as (old_alarm & Hold & H).
  apply (list_index_nonneg _ _ _ Hidx) in Hold as [Hold _].
  assert (old_alarm = a) as -> by congruence.
  apply bind_Ok in H as (old_effect & Heff & H).
  injection H as <-.
  rewrite Forall_forall in Hrange.
  assert (Hk : 0 <= type6_index a < Z.of_nat (length (type6_effects self))).
  { apply Hrange. apply list_elem_of_lookup. eauto. }
  apply list_index_nonneg in Heff as [Heff _]; [| lia].
  set (k := Z.to_nat (type6_index a)) in *.
  destruct (Forall2_lookup_l _ _ _ _ _ Hcache Heff) as (e & Hfil & Hagree).
  assert (Hkp : exists p, type6_indices (library (config_manager self)) !! k = Some p).
  { apply lookup_lt_is_Some. rewrite type6_indices_length.
    apply lookup_lt_Some in Hfil. exact Hfil. }
  destruct Hkp as [p Hkp].
  destruct (type6_indices_lookup _ _ _ Hkp) as (e0 & Hp & He0 & Hfil0 & Hcount).
  assert (e0 = e) as -> by congruence.
  destruct (updated_effect_fields f old_effect) as (Htext & Haudio & Hloop & Hrest).
  set (e' := updated_effect f old_effect) in *.
  assert (Hagree' : agree_off_edit e' e).
  { intros key H1 H2 H3. rewrite (Hrest key H1 H2 H3). now apply Hagree. }
  assert (He' : is_type6 e' = true).
  { now rewrite (agree_off_edit_type6 _ _ Hagree'). }
  (* the document behind the library *)
  assert (Hdoc : exists d lib,
            ConfigManager.config_data (config_manager self) = Some d /\
            specialEffectLibrary d = Some lib /\
            library (config_manager self) = lib).
  { unfold library in *.
    destruct (ConfigManager.config_data (config_manager self)) as [d |];
      [| discriminate Hp].
    cbn in Hp |- *.
    destruct (specialEffectLibrary d) as [lib |] eqn:Hlib; [| discriminate Hp].
    exists d, lib. auto. }
  destruct Hdoc as (d & lib & Hd & Hlib & Hlibeq). rewrite Hlibeq in *.
  assert (Hnd : ConfigManager.no_data (config_manager self) = false).
  { unfold ConfigManager.no_data, doc_is_empty. rewrite Hd, Hlib.
    now destruct (notes d), (meshes d). }
  assert (Hset : ConfigManager.set_type6_effect (type6_index a) e' (config_manager self)
                 = ConfigManager.with_data
                     (Some (with_library (Some (<[p := e']> lib)) d))
                     (config_manager self)).
  { unfold ConfigManager.set_type6_effect. rewrite Hnd, Hd, Hlib.
    cbn [default]. cbv zeta. unfold id.
    assert (Hr : (0 <=? type6_index a)
                 && (type6_index a <? Z.of_nat (length (type6_indices lib))) = true).
    { apply andb_true_iff. split; [apply Z.leb_le; lia | apply Z.ltb_lt].
      pose proof (lookup_lt_Some _ _ _ Hkp) as Hlt. unfold k in Hlt. lia. }
    rewrite Hr. fold k. rewrite Hkp. reflexivity. }
  exists d, lib, p, e, e'.
  split; [exact Hd |]. split; [exact Hlib |]. split; [exact Hkp |].
  split; [exact Hp |]. split; [exact Hset |]. split; [exact Htext |].
  split; [exact Haudio |]. split; [exact Hloop |]. split; [exact Hagree' |].
  (* the session stays coherent *)
  destruct (type6_insert lib p e e' Hp He0 He') as [_ Hfilter'].
  split; cbn.
  - rewrite Hset.
    change (library (ConfigManager.with_data
                       (Some (with_library (Some (<[p := e']> lib)) d))
                       (config_manager self)))
      with (<[p := e']> lib).
    rewrite Hfilter', <- Hcount.
    rewrite <- (list_insert_id _ _ _ Heff).
    apply Forall2_insert; [exact Hcache |].
    intros key H1 H2 H3. symmetry. now apply Hrest.
  - apply Forall_insert; [apply Forall_forall; exact Hrange |]. cbn. exact Hk.
Qed.


Lemma first_key_of_elem d v k : first_key_of d v = Some k -> (k, v) ∈ d.
Proof.
  induction d as [| [k0 v0] d IH]; cbn; [discriminate |].
  destruct (v0 =? v) eqn:E.
  - apply Z.eqb_eq in E as ->. intros [= ->]. left.
  - intros H. right. now apply IH.
Qed.

Lemma dict_of_key_range ps k v :
  (k, v) ∈ dict_of ps -> 0 <= k < Z.of_nat (length ps).
Proof.
  unfold dict_of, enumerate. intros H.
  apply list_elem_of_fmap in H as ([i n] & [= -> ->] & H).
  apply list_elem_of_lookup in H as [j Hj].
  rewrite enumerate_from_lookup in Hj.
  destruct (ps !! j) eqn:E; [| discriminate].
  apply lookup_lt_Some in E. cbn in Hj. injection Hj as <- _. cbn. lia.
Qed.

(** What a load leaves in the two caches. *)
Lemma load_data_caches self self' :
  _load_data self = Ok self' ->
  type6_effects self'
    = filter (fun e : obj => is_type6 e) (library (config_manager self')) /\
  type6_to_actual_index self' = fst (project (library (config_manager self'))).
Proof.
  intros Hload. pose proof (load_data_manager _ _ Hload) as Hcm.
  unfold _load_data in Hload.
  destruct (ConfigManager.config_data (config_manager self)) as [d |] eqn:Hd;
    [| discriminate].
  apply bind_Ok in Hload as (b & _ & [= <-]). cbn.
  rewrite get_type6_effects_library. unfold library. now rewrite Hd.
Qed.

Lemma library_set_time_triggers ts cm :
  library (ConfigManager.set_time_triggers ts cm) = library cm.
Proof.
  unfold ConfigManager.set_time_triggers.
  destruct (ConfigManager.no_data cm); [reflexivity |].
  destruct (ConfigManager.config_data cm) as [d |] eqn:Hd; [| reflexivity].
  destruct (default [] (meshes d)); [reflexivity |].
  unfold library. cbn. now rewrite Hd.
Qed.

Lemma library_save_config w cm :
  library (fst (ConfigManager.save_config w cm)) = library cm.
Proof. unfold library. now rewrite save_config_data. Qed.

(** Every reachable session is coherent. *)
Lemma reachable_coherent self : reachable self -> coherent self.
Proof.
  induction 1 as [cm self Hinit
                 | self index f self' v _ IH Hrun
                 | self selection confirmed self' _ IH Hrun
                 | self w self' saved _ IH Hrun].
  - eapply load_data_coherent. exact Hinit.
  - pose proof Hrun as Hrun0. unfold save_alarm in Hrun.
    destruct (Utils.time_to_seconds (time_var f) <? 0);
      [injection Hrun as <- _; exact IH |].
    destruct (0 <=? index) eqn:Hidx.
    + apply Z.leb_le in Hidx.
      apply bind_Ok in Hrun as (a & Ha & Hrun).
      apply list_index_nonneg in Ha as [Ha _]; [| exact Hidx].
      apply bind_Ok in Hrun as (oe & _ & Hrun).
      assert (v = Closed) as -> by (injection Hrun; auto).
      destruct (save_alarm_update self self' index f a IH Hidx Ha Hrun0)
        as (d & lib & p & e & e' & _ & _ & _ & _ & _ & _ & _ & _ & _ & Hcoh).
      exact Hcoh.
    + destruct (ConfigManager.add_type6_effect _ _) as [cm ai].
      apply bind_Ok in Hrun as (s1 & Hload & Hrun).
      pose proof (load_data_coherent _ _ Hload) as [Hc1 Hc2].
      destruct (first_key_of (type6_to_actual_index s1) ai) as [k |] eqn:Hk;
        injection Hrun as <- _; [| now split].
      split; [exact Hc1 |]. cbn. apply Forall_app. split; [exact Hc2 |].
      constructor; [| constructor]. cbn.
      destruct (load_data_caches _ _ Hload) as [Ht6 Hfwd].
      apply first_key_of_elem in Hk. rewrite Hfwd, project_spec in Hk. cbn in Hk.
      apply dict_of_key_range in Hk.
      now rewrite Ht6, <- type6_indices_length.
  - unfold _delete_alarm in Hrun. destruct selection as [i |]; [| now injection Hrun as <-].
    destruct confirmed; [| now injection Hrun as <-].
    apply bind_Ok in Hrun as (a & _ & Hload).
    eapply load_data_coherent. exact Hload.
  - unfold _save_alarms in Hrun.
    destruct (ConfigManager.config_data (config_manager self)) as [d |]; [| discriminate].
    destruct (ConfigManager.save_config w _) as [cm2 b] eqn:Hsave.
    destruct b.
    + apply bind_Ok in Hrun as (s1 & Hload & [= <- _]).
      eapply load_data_coherent. exact Hload.
    + injection Hrun as <- _. destruct IH as [Hc1 Hc2]. split; [| exact Hc2]. cbn.
      assert (Hlib : library cm2 = library (config_manager self)).
      { pose proof (library_save_config w
                      (ConfigManager.set_time_triggers
                         (omap (saved_trigger
                                  (fst (project (default [] (specialEffectLibrary d)))))
                               (alarms self))
                         (config_manager self))) as Hl.
        rewrite Hsave in Hl. cbn in Hl. now rewrite Hl, library_set_time_triggers. }
      now rewrite Hlib.
Qed.



End Update.

(** ** Loading the notes *)

Section Notes.

Import NoteInterface.

Lemma ensure_visible_spec note :
  (note !! "visible" = None ->
     ensure_visible note = <["visible" := VBool true]> note /\
     shown_visible (ensure_visible note) = true) /\
  (is_Some (note !! "visible") -> ensure_visible note = note).
Proof.
  unfold ensure_visible, has_key. split.
  - intros Hn. rewrite bool_decide_eq_false_2.
    + split; [reflexivity |]. unfold shown_visible, get_default. cbn [negb].
      now rewrite lookup_insert_eq.
    + rewrite Hn. now intros [? ?].
  - intros Hs. now rewrite bool_decide_eq_true_2.
Qed.

(** C9. Opening the note window on a document gives every note without
    a [visible] field the field [visible = true], in the view and in the
    document held in memory, and shows it as visible; a note that has the
    field keeps it.  The file on disk is the same as before, and holds
    the new field once a save has written it. *)
Theorem missing_visible_defaults_in_memory (cm : ConfigManager.t) (d : document)
    (ns : list obj) :
  ConfigManager.config_data cm = Some d ->
  notes d = Some ns ->
  notes_of (init cm) = ensure_visible <$> ns /\
  ConfigManager.config_data (config_manager (init cm))
    = Some (with_notes (Some (ensure_visible <$> ns)) d) /\
  ConfigManager.disk (config_manager (init cm)) = ConfigManager.disk cm /\
  (forall i note, ns !! i = Some note ->
     notes_of (init cm) !! i = Some (ensure_visible note) /\
     (note !! "visible" = None ->
        ensure_visible note = <["visible" := VBool true]> note /\
        shown_visible (ensure_visible note) = true) /\
     (is_Some (note !! "visible") -> ensure_visible note = note)) /\
  (forall w self',
     _save_notes w (init cm) = (self', true) ->
     ConfigManager.disk (config_manager self')
     = Some (with_notes (Some (ensure_visible <$> ns)) d)).
Proof.
  intros Hd Hns.
  assert (Hnd : ConfigManager.no_data cm = false).
  { unfold ConfigManager.no_data, doc_is_empty. now rewrite Hd, Hns. }
  assert (Hinit : init cm
                  = {| config_manager :=
                         ConfigManager.with_data
                           (Some (with_notes (Some (ensure_visible <$> ns)) d)) cm;
                       notes_ref_of := Shared |}).
  { unfold init, _load_data, ConfigManager.get_notes. cbn [config_manager].
    rewrite Hnd, Hd, Hns. unfold write_notes, notes_of. cbn. rewrite Hd. cbn.
    now rewrite Hns. }
  rewrite Hinit. cbn.
  split; [reflexivity |]. split; [reflexivity |]. split; [reflexivity |]. split.
  - intros i note Hi. split; [now rewrite list_lookup_fmap, Hi |].
    apply ensure_visible_spec.
  - intros w self'. unfold _save_notes, notes_of, ConfigManager.set_notes. cbn.
    unfold ConfigManager.save_config, ConfigManager.no_data. cbn.
    destruct (ConfigManager.no_path _); cbn; [intros [= <-] |].
    destruct w; cbn; intros [= <-]. reflexivity.
Qed.

Lemma missing_visible_defaults_in_memory_witness :
  notes_of (init (manager_on doc_notes))
  = [<["visible" := VBool true]> note_plain; note_hidden] /\
  ConfigManager.disk (config_manager (init (manager_on doc_notes))) = Some doc_notes /\
  ConfigManager.disk
    (config_manager (fst (_save_notes ConfigManager.Written (init (manager_on doc_notes)))))
  = Some (with_notes (Some [<["visible" := VBool true]> note_plain; note_hidden]) doc_notes).
Proof.
  destruct (missing_visible_defaults_in_memory (manager_on doc_notes) doc_notes
              [note_plain; note_hidden] eq_refl eq_refl)
    as (Hview & _ & Hdisk & _ & Hsave).
  split; [rewrite Hview; vm_compute; reflexivity |].
  split; [rewrite Hdisk; reflexivity |].
  rewrite (Hsave ConfigManager.Written
             (fst (_save_notes ConfigManager.Written (init (manager_on doc_notes))))).
  - vm_compute. reflexivity.
  - vm_compute. reflexivity.
Defined.

End Notes.

(** ** Deleting an alarm *)

Section Delete.

Import AlarmInterface.


Lemma remove_type6_effect_trigger_array k cm :
  trigger_array (ConfigManager.remove_type6_effect k cm) = trigger_array cm.
Proof.
  unfold ConfigManager.remove_type6_effect.
  destruct (ConfigManager.no_data cm); [reflexivity |].
  destruct (ConfigManager.config_data cm) as [d |] eqn:Hd; [| reflexivity].
  destruct (specialEffectLibrary d) as [effects |]; [| reflexivity].
  destruct (_ && _); [| reflexivity].
  destruct (_ !! _); [| reflexivity].
  unfold trigger_array. cbn. now rewrite Hd.
Qed.






(** C1 at a failing input.  The scenario shows two alarms; deleting the
    first leaves none in the reloaded view, because the trigger of the
    second still names the position its entry had before the library
    shrank.  With three alarms the second trigger lands on the third
    entry and the third is dropped. *)
Theorem delete_first_alarm_corrupts_later_ones :
  summary <$> alarms view_scenario
    = [(3600, true, VStr "A", VStr "", VBool false);
       (2000, false, VStr "B", VStr "", VBool false)] /\
  _delete_alarm (Some 0%nat) true view_scenario = Ok view_deleted /\
  summary <$> alarms view_deleted = [] /\
  summary <$> alarms view_three
    = [(100, true, VStr "A", VStr "", VBool false);
       (200, true, VStr "B", VStr "", VBool false);
       (300, true, VStr "C", VStr "", VBool false)] /\
  _delete_alarm (Some 0%nat) true view_three = Ok view_three_deleted /\
  summary <$> alarms view_three_deleted
    = [(200, true, VStr "C", VStr "", VBool false)].
Proof. repeat split; vm_compute; reflexivity. Qed.

End Delete.

(** * Further properties of the code *)

(** ** The text of a time of day *)

Section TimeText.

Lemma digit_char_not_colon d : 0 <= d < 10 -> Ascii.eqb (digit_char d) ":" = false.
Proof.
  intros Hd. pose proof (digit_of_digit_char d Hd) as H.
  destruct (Ascii.eqb (digit_char d) ":") eqn:E; [| reflexivity].
  apply Ascii.eqb_eq in E. rewrite E in H. discriminate H.
Qed.

Lemma digits_from_colon_free fuel : forall n acc,
  colon_free acc = true -> colon_free (digits_from fuel n acc) = true.
Proof.
  induction fuel as [| fuel IH]; intros n acc Hacc; [exact Hacc |].
  cbn [digits_from].
  assert (Hc : colon_free (String (digit_char (n mod 10)) acc) = true).
  { cbn [colon_free]. rewrite digit_char_not_colon, Hacc; [reflexivity |].
    apply Z.mod_pos_bound. lia. }
  destruct (n / 10 =? 0); [exact Hc | now apply IH].
Qed.

Lemma str_colon_free n : colon_free (str n) = true.
Proof.
  unfold str, str_nonneg. destruct (n <? 0); cbn [colon_free];
    now rewrite ?digits_from_colon_free.
Qed.

Lemma format_02d_colon_free n : colon_free (Utils.format_02d n) = true.
Proof.
  unfold Utils.format_02d. destruct (_ <? _)%nat; cbn [colon_free];
    now rewrite str_colon_free.
Qed.

Lemma split_colon_free s : colon_free s = true -> split ":" s = [s].
Proof.
  induction s as [| c s IH]; [reflexivity |]. cbn [colon_free split].
  intros H. apply andb_true_iff in H as [Hc Hs]. apply negb_true_iff in Hc.
  now rewrite Hc, IH.
Qed.

Lemma split_at_colon s1 s2 :
  colon_free s1 = true -> colon_free s2 = true ->
  split ":" (String.append s1 (String ":" s2)) = [s1; s2].
Proof.
  intros H1 H2. induction s1 as [| c s1 IH].
  - change (split ":" (String.append EmptyString (String ":" s2)))
      with (EmptyString :: split ":" s2).
    now rewrite split_colon_free.
  - cbn [colon_free] in H1. apply andb_true_iff in H1 as [Hc Hs].
    apply negb_true_iff in Hc.
    change (String.append (String c s1) (String ":" s2))
      with (String c (String.append s1 (String ":" s2))).
    cbn [split]. now rewrite Hc, IH.
Qed.

Lemma str_nonneg_length_neg n : n < 0 -> (2 <= String.length (str n))%nat.
Proof.
  intros Hn. unfold str. rewrite (proj2 (Z.ltb_lt n 0) Hn).
  destruct (str_nonneg_head (- n)) as (d & s' & _ & ->). cbn. lia.
Qed.

(** [int()] reads a padded number back. *)
Lemma int_format_02d n : int (VStr (Utils.format_02d n)) = Ok n.
Proof.
  unfold Utils.format_02d.
  destruct (String.length (str n) <? 2)%nat eqn:E; [| apply int_str].
  apply Nat.ltb_lt in E.
  assert (Hn : 0 <= n).
  { destruct (Z.lt_ge_cases n 0) as [Hneg | ?]; [| assumption].
    pose proof (str_nonneg_length_neg n Hneg). lia. }
  unfold str. rewrite (proj2 (Z.ltb_ge n 0) Hn).
  cbn [int]. unfold int_of_string.
  change (lstrip (String "0" (str_nonneg n))) with (String "0" (str_nonneg n)).
  cbv iota beta.
  change (digit_of "0") with (Some 0). cbn [bool_decide decide_rel].
  change (scan_digits 0 false (String "0" (str_nonneg n)))
    with (scan_digits (0 * 10 + 0) false (str_nonneg n)).
  change (0 * 10 + 0) with 0. now rewrite scan_str_nonneg.
Qed.

(** X1. The text [seconds_to_time] shows for a time of day is read back
    by [time_to_seconds] as that time rounded down to the minute; the
    text shown for a number outside [0, 86400) is refused. *)
Theorem time_text_roundtrip (seconds : Z) :
  Utils.time_to_seconds (Utils.seconds_to_time seconds)
  = if (0 <=? seconds) && (seconds <? 86400) then seconds - seconds mod 60 else -1.
Proof.
  unfold Utils.time_to_seconds, Utils.seconds_to_time. cbv zeta.
  rewrite split_at_colon by apply format_02d_colon_free.
  rewrite !int_format_02d. cbn [mbind result_bind].
  pose proof (Z.div_mod seconds 3600 ltac:(lia)) as H1.
  pose proof (Z.mod_pos_bound seconds 3600 ltac:(lia)) as H2.
  pose proof (Z.div_mod (seconds mod 3600) 60 ltac:(lia)) as H3.
  pose proof (Z.mod_pos_bound (seconds mod 3600) 60 ltac:(lia)) as H4.
  assert (H5 : (seconds mod 3600) mod 60 = seconds mod 60).
  { apply Z.mod_mod_divide. exists 60. reflexivity. }
  set (h := seconds / 3600) in *. set (r := seconds mod 3600) in *.
  set (m := r / 60) in *.
  destruct ((0 <=? seconds) && (seconds <? 86400)) eqn:E.
  - apply andb_true_iff in E as [E1 E2]. apply Z.leb_le in E1. apply Z.ltb_lt in E2.
    assert (Hc : (0 <=? h) && (h <? 24) && (0 <=? m) && (m <? 60) = true).
    { repeat (apply andb_true_iff; split);
        first [apply Z.leb_le | apply Z.ltb_lt]; lia. }
    rewrite Hc. lia.
  - assert (Hc : (0 <=? h) && (h <? 24) && (0 <=? m) && (m <? 60) = false).
    { apply andb_false_iff in E as [E | E].
      - apply Z.leb_gt in E.
        assert ((0 <=? h) = false) as -> by (apply Z.leb_gt; lia). reflexivity.
      - apply Z.ltb_ge in E.
        destruct (0 <=? h); [| reflexivity].
        assert ((h <? 24) = false) as -> by (apply Z.ltb_ge; lia). reflexivity. }
    now rewrite Hc.
Qed.

End TimeText.

(** ** The type-6 entries of the library *)

Section LibraryOps.

Import ConfigManager.

Lemma delete_middle {A} (l1 l2 : list A) x :
  delete (length l1) (l1 ++ x :: l2) = l1 ++ l2.
Proof. induction l1 as [| y l1 IH]; cbn; [reflexivity | f_equal; exact IH]. Qed.

Lemma type6_not_other (e : obj) :
  is_type6 e = true -> ~ negb (is_type6 e).
Proof. intros -> H. exact H. Qed.

Lemma other_not_type6 (e : obj) :
  is_type6 e = false -> ~ is_type6 e.
Proof. intros -> H. exact H. Qed.

(** Removing the entry at the [k]-th alarm-kind position. *)
Lemma type6_delete (l : list obj) k p :
  type6_indices l !! k = Some p ->
  filter (fun x : obj => is_type6 x) (delete p l)
    = delete k (filter (fun x : obj => is_type6 x) l) /\
  filter (fun x : obj => negb (is_type6 x)) (delete p l)
    = filter (fun x : obj => negb (is_type6 x)) l.
Proof.
  intros Hk.
  destruct (type6_indices_lookup _ _ _ Hk) as (e & Hp & He & _ & ->).
  assert (Hlen : length (take p l) = p).
  { apply length_take_le. apply lookup_lt_Some in Hp. lia. }
  pose proof (take_drop_middle _ _ _ Hp) as Hl.
  set (l1 := take p l) in *. set (l2 := drop (S p) l) in *.
  rewrite <- Hl, <- Hlen, delete_middle.
  rewrite !filter_app.
  rewrite (filter_cons_True (fun x : obj => is_type6 x)) by now apply Is_true_true.
  rewrite (filter_cons_False (fun x : obj => negb (is_type6 x)))
    by now apply type6_not_other.
  now rewrite delete_middle.
Qed.

(** Overwriting the entry at the [k]-th alarm-kind position with an entry
    of another kind. *)
Lemma type6_overwrite_other (l : list obj) k p e' :
  type6_indices l !! k = Some p -> is_type6 e' = false ->
  filter (fun x : obj => is_type6 x) (<[p := e']> l)
    = delete k (filter (fun x : obj => is_type6 x) l).
Proof.
  intros Hk He'.
  destruct (type6_indices_lookup _ _ _ Hk) as (e & Hp & He & _ & ->).
  assert (Hlen : length (take p l) = p).
  { apply length_take_le. apply lookup_lt_Some in Hp. lia. }
  pose proof (take_drop_middle _ _ _ Hp) as Hl.
  set (l1 := take p l) in *. set (l2 := drop (S p) l) in *.
  rewrite <- Hl, <- Hlen, insert_middle.
  rewrite !filter_app.
  rewrite (filter_cons_True _ e) by now apply Is_true_true.
  rewrite (filter_cons_False _ e') by now apply other_not_type6.
  now rewrite delete_middle.
Qed.

Lemma type6_overwrite_others_kept (l : list obj) p e e' :
  l !! p = Some e -> is_type6 e = true -> is_type6 e' = true ->
  filter (fun x : obj => negb (is_type6 x)) (<[p := e']> l)
    = filter (fun x : obj => negb (is_type6 x)) l.
Proof.
  intros Hp He He'.
  assert (Hlen : length (take p l) = p).
  { apply length_take_le. apply lookup_lt_Some in Hp. lia. }
  pose proof (take_drop_middle _ _ _ Hp) as Hl.
  set (l1 := take p l) in *. set (l2 := drop (S p) l) in *.
  rewrite <- Hl, <- Hlen, insert_middle.
  rewrite !filter_app.
  now rewrite !(filter_cons_False (fun x : obj => negb (is_type6 x)))
    by now apply type6_not_other.
Qed.

(** A position in range of the type-6 entries exposes the document, its
    library and the absolute position. *)
Lemma type6_in_range cm k :
  0 <= k < Z.of_nat (length (get_type6_effects cm)) ->
  exists d lib p,
    config_data cm = Some d /\ specialEffectLibrary d = Some lib /\
    no_data cm = false /\ library cm = lib /\
    type6_indices lib !! Z.to_nat k = Some p /\
    (0 <=? k) && (k <? Z.of_nat (length (type6_indices lib))) = true.
Proof.
  rewrite get_type6_effects_library. intros Hk.
  unfold library in *.
  destruct (config_data cm) as [d |] eqn:Hd; [| cbn in Hk; lia].
  cbn in Hk |- *.
  destruct (specialEffectLibrary d) as [lib |] eqn:Hlib; [| cbn in Hk; lia].
  cbn in Hk. rewrite <- type6_indices_length in Hk.
  destruct (lookup_lt_is_Some_2 (type6_indices lib) (Z.to_nat k)) as [p Hp]; [lia |].
  exists d, lib, p. repeat split; auto.
  - unfold no_data, doc_is_empty. rewrite Hd, Hlib. now destruct (notes d), (meshes d).
  - apply andb_true_iff. split; [apply Z.leb_le | apply Z.ltb_lt]; lia.
Qed.

Lemma type6_out_of_range (lib : list obj) k :
  ~ (0 <= k < Z.of_nat (length (filter (fun x : obj => is_type6 x) lib))) ->
  (0 <=? k) && (k <? Z.of_nat (length (type6_indices lib))) = false.
Proof.
  intros Hk. rewrite type6_indices_length.
  destruct (0 <=? k) eqn:E0; [| reflexivity]. apply Z.leb_le in E0.
  cbn. apply Z.ltb_ge. lia.
Qed.

(** X2. [remove_type6_effect k] removes exactly the [k]-th type-6 entry:
    the type-6 entries after it are the former ones without the [k]-th,
    the entries of other kinds are the same in the same order, and the
    trigger array is as before.  For [k] out of range nothing changes. *)
Theorem remove_type6_effect_subsequence (cm : ConfigManager.t) (k : Z) :
  get_type6_effects (remove_type6_effect k cm)
    = (if (0 <=? k) && (k <? Z.of_nat (length (get_type6_effects cm)))
       then delete (Z.to_nat k) (get_type6_effects cm)
       else get_type6_effects cm) /\
  filter (fun x : obj => negb (is_type6 x)) (library (remove_type6_effect k cm))
    = filter (fun x : obj => negb (is_type6 x)) (library cm) /\
  trigger_array (remove_type6_effect k cm) = trigger_array cm /\
  (~ (0 <= k < Z.of_nat (length (get_type6_effects cm))) ->
     remove_type6_effect k cm = cm).
Proof.
  split; [| split; [| split; [apply remove_type6_effect_trigger_array |]]].
  - destruct ((0 <=? k) && (k <? Z.of_nat (length (get_type6_effects cm)))) eqn:E.
    + apply andb_true_iff in E as [E1 E2]. apply Z.leb_le in E1. apply Z.ltb_lt in E2.
      destruct (type6_in_range cm k) as (d & lib & p & Hd & Hlib & Hn & Hl & Hp & Hr);
        [lia |].
      rewrite !get_type6_effects_library, Hl.
      unfold remove_type6_effect. rewrite Hn, Hd, Hlib, Hr, Hp.
      change (library (with_data (Some (with_library (Some (delete p lib)) d)) cm))
        with (delete p lib).
      now apply type6_delete.
    + assert (Hid : remove_type6_effect k cm = cm); [| now rewrite Hid].
      unfold remove_type6_effect.
      destruct (no_data cm); [reflexivity |].
      destruct (config_data cm) as [d |] eqn:Hd; [| reflexivity].
      destruct (specialEffectLibrary d) as [lib |] eqn:Hlib; [| reflexivity].
      rewrite type6_out_of_range; [reflexivity |].
      rewrite get_type6_effects_library in E. unfold library in E.
      rewrite Hd in E. cbn in E. rewrite Hlib in E. cbn in E.
      intros [H1 H2]. apply andb_false_iff in E as [E | E];
        [apply Z.leb_gt in E | apply Z.ltb_ge in E]; lia.
  - unfold remove_type6_effect.
    destruct (no_data cm); [reflexivity |].
    destruct (config_data cm) as [d |] eqn:Hd; [| reflexivity].
    destruct (specialEffectLibrary d) as [lib |] eqn:Hlib; [| reflexivity].
    destruct (_ && _); [| reflexivity].
    destruct (type6_indices lib !! Z.to_nat k) as [p |] eqn:Hp; [| reflexivity].
    change (library (with_data (Some (with_library (Some (delete p lib)) d)) cm))
      with (delete p lib).
    assert (Hl : library cm = lib) by (unfold library; rewrite Hd; cbn; now rewrite Hlib).
    rewrite Hl. now apply (type6_delete lib (Z.to_nat k) p).
  - intros Hk. unfold remove_type6_effect.
    destruct (no_data cm); [reflexivity |].
    destruct (config_data cm) as [d |] eqn:Hd; [| reflexivity].
    destruct (specialEffectLibrary d) as [lib |] eqn:Hlib; [| reflexivity].
    rewrite type6_out_of_range; [reflexivity |].
    rewrite get_type6_effects_library in Hk. unfold library in Hk.
    rewrite Hd in Hk. cbn in Hk. now rewrite Hlib in Hk.
Qed.

Lemma remove_type6_effect_subsequence_witness :
  get_type6_effects (remove_type6_effect 0 (manager_on doc_scenario))
    = [effect_of 6 "B"] /\
  library (remove_type6_effect 0 (manager_on doc_scenario))
    = [effect_of 1 "other"; effect_of 6 "B"] /\
  remove_type6_effect 2 (manager_on doc_scenario) = manager_on doc_scenario.
Proof.
  destruct (remove_type6_effect_subsequence (manager_on doc_scenario) 0)
    as (Hsub & _ & _ & _).
  destruct (remove_type6_effect_subsequence (manager_on doc_scenario) 2)
    as (_ & _ & _ & Hout).
  split; [rewrite Hsub; vm_compute; reflexivity |].
  split; [vm_compute; reflexivity |].
  apply Hout. vm_compute. intros [_ H]. discriminate H.
Defined.

(** X3. [set_type6_effect k e] for [k] in range writes [e] over the
    [k]-th type-6 entry and over nothing else: the library keeps its
    length, and when [e] is itself a type-6 entry the type-6 entries are
    the former ones with the [k]-th replaced and the entries of other
    kinds are untouched.  The kind of [e] is not checked: an entry of
    another kind takes the place in the library, so the [k]-th type-6
    entry disappears from the subsequence.  For [k] out of range the
    entries of the library are as before. *)
Theorem set_type6_effect_subsequence (cm : ConfigManager.t) (k : Z) (e : obj) :
  (0 <= k < Z.of_nat (length (get_type6_effects cm)) ->
     length (library (set_type6_effect k e cm)) = length (library cm) /\
     get_type6_effects (set_type6_effect k e cm)
       = (if is_type6 e then <[Z.to_nat k := e]> (get_type6_effects cm)
          else delete (Z.to_nat k) (get_type6_effects cm)) /\
     (is_type6 e = true ->
        filter (fun x : obj => negb (is_type6 x)) (library (set_type6_effect k e cm))
        = filter (fun x : obj => negb (is_type6 x)) (library cm))) /\
  (~ (0 <= k < Z.of_nat (length (get_type6_effects cm))) ->
     library (set_type6_effect k e cm) = library cm).
Proof.
  split.
  - intros Hk.
    destruct (type6_in_range cm k Hk) as (d & lib & p & Hd & Hlib & Hn & Hl & Hp & Hr).
    assert (Hset : library (set_type6_effect k e cm) = <[p := e]> lib).
    { unfold set_type6_effect. rewrite Hn, Hd, Hlib. cbn [default]. cbv zeta.
      unfold id. rewrite Hr, Hp. reflexivity. }
    destruct (type6_indices_lookup _ _ _ Hp) as (e0 & Hp0 & He0 & _ & Hcount).
    rewrite !get_type6_effects_library, Hset, Hl.
    split; [apply length_insert |]. split.
    + destruct (is_type6 e) eqn:He.
      * destruct (type6_insert lib p e0 e Hp0 He0 He) as [_ ->]. now rewrite <- Hcount.
      * now apply type6_overwrite_other.
    + intros He. now apply (type6_overwrite_others_kept lib p e0 e).
  - intros Hk. unfold set_type6_effect.
    destruct (no_data cm) eqn:Hn; [reflexivity |].
    destruct (config_data cm) as [d |] eqn:Hd; [| reflexivity].
    cbv zeta.
    assert (Hl : library cm = default [] (specialEffectLibrary d)).
    { unfold library. now rewrite Hd. }
    rewrite type6_out_of_range.
    + unfold library. cbn. now rewrite Hd.
    + rewrite get_type6_effects_library, Hl in Hk. exact Hk.
Qed.

Lemma set_type6_effect_subsequence_witness :
  get_type6_effects (set_type6_effect 1 (effect_of 6 "C") (manager_on doc_scenario))
    = [effect_of 6 "A"; effect_of 6 "C"] /\
  get_type6_effects (set_type6_effect 0 (effect_of 1 "C") (manager_on doc_scenario))
    = [effect_of 6 "B"] /\
  library (set_type6_effect 5 (effect_of 6 "C") (manager_on doc_scenario))
    = library (manager_on doc_scenario).
Proof.
  destruct (set_type6_effect_subsequence (manager_on doc_scenario) 1 (effect_of 6 "C"))
    as (Hin & _).
  destruct (set_type6_effect_subsequence (manager_on doc_scenario) 0 (effect_of 1 "C"))
    as (Hin' & _).
  destruct (set_type6_effect_subsequence (manager_on doc_scenario) 5 (effect_of 6 "C"))
    as (_ & Hout).
  split; [| split].
  - destruct Hin as (_ & -> & _); [vm_compute; split; [discriminate | reflexivity] |].
    vm_compute. reflexivity.
  - destruct Hin' as (_ & -> & _); [vm_compute; split; [discriminate | reflexivity] |].
    vm_compute. reflexivity.
  - apply Hout. vm_compute. intros [_ H]. discriminate H.
Defined.

End LibraryOps.

(** ** The history of directories *)

Section History.

Import ConfigManager.

Lemma list_remove_absent d (l : list string) : d ∉ l -> list_remove d l = l.
Proof.
  induction l as [| h l IH]; intros Hd; [reflexivity |]. cbn.
  apply not_elem_of_cons in Hd as [Hne Hd].
  rewrite bool_decide_eq_false_2 by congruence. now rewrite IH.
Qed.

(** Without repetitions, dropping the first occurrence drops them all. *)
Lemma list_remove_filter d (l : list string) :
  NoDup l -> list_remove d l = filter (fun h => h <> d) l.
Proof.
  induction 1 as [| h l Hh _ IH]; [reflexivity |]. cbn [list_remove].
  destruct (decide (h = d)) as [-> | Hne].
  - rewrite bool_decide_eq_true_2 by reflexivity.
    rewrite filter_cons_False by (intros H; now apply H).
    rewrite <- IH. symmetry. now apply list_remove_absent.
  - rewrite bool_decide_eq_false_2 by exact Hne.
    rewrite filter_cons_True by exact Hne. now rewrite IH.
Qed.

(** X4. On a history without repetitions [save_directory_to_history]
    writes the directory first, then the other directories in their former
    order, cut after ten entries; the written history has no repetition
    either and at most ten entries. *)
Theorem updated_history_recent_first (directory : string) (history : list string) :
  NoDup history ->
  updated_history directory history
    = directory :: take 9 (filter (fun h => h <> directory) history) /\
  NoDup (updated_history directory history) /\
  (length (updated_history directory history) <= 10)%nat.
Proof.
  intros Hnd.
  assert (Heq : updated_history directory history
                = directory :: take 9 (filter (fun h => h <> directory) history)).
  { unfold updated_history. cbn [take]. do 2 f_equal.
    destruct (decide (directory ∈ history)) as [Hin | Hout].
    - rewrite bool_decide_eq_true_2 by exact Hin. now apply list_remove_filter.
    - rewrite bool_decide_eq_false_2 by exact Hout.
      rewrite <- (list_remove_absent directory history Hout) at 1.
      now apply list_remove_filter. }
  rewrite Heq. split; [reflexivity |]. split.
  - apply NoDup_cons. split.
    + intros Hin. apply (sublist_subseteq _ _ (sublist_take _ _)) in Hin.
      apply list_elem_of_filter in Hin as [Hne _]. now apply Hne.
    + eapply sublist_NoDup; [| apply sublist_take]. now apply NoDup_filter.
  - cbn [length]. rewrite length_take. lia.
Qed.

Lemma updated_history_recent_first_witness :
  updated_history "b" ["a"; "b"; "c"]%string = ["b"; "a"; "c"]%string /\
  NoDup (updated_history "b" ["a"; "b"; "c"]%string).
Proof.
  destruct (updated_history_recent_first "b" ["a"; "b"; "c"]%string) as (Heq & Hnd & _).
  - apply (bool_decide_unpack _). vm_compute. exact I.
  - split; [rewrite Heq; vm_compute; reflexivity | exact Hnd].
Defined.

End History.

(** ** Editing, deleting and saving notes *)

Section NoteEdits.

Import NoteInterface.

Lemma notes_of_write_notes l self :
  shared_is_stored self ->
  notes_of (write_notes l self) = l /\
  (notes_ref_of (write_notes l self) = Shared <-> notes_ref_of self = Shared) /\
  ConfigManager.disk (config_manager (write_notes l self))
    = ConfigManager.disk (config_manager self) /\
  (notes_ref_of self = Shared ->
   ConfigManager.config_data (config_manager (write_notes l self)) ≫= notes = Some l).
Proof.
  unfold shared_is_stored, write_notes, notes_of. intros Hwf.
  destruct (notes_ref_of self) eqn:Href; cbn.
  - destruct (Hwf eq_refl) as (d & ns & Hd & _). rewrite Hd. cbn.
    repeat split; auto.
  - repeat split; try reflexivity; intros H; discriminate H.
Qed.

Lemma write_notes_coherent l self :
  shared_is_stored self ->
  Forall (fun note : obj => is_Some (note !! "visible")) l ->
  note_coherent (write_notes l self).
Proof.
  intros Hwf Hl.
  destruct (notes_of_write_notes l self Hwf) as (Hn & Hr & _ & Hc).
  split; [| now rewrite Hn].
  intros Hs. apply Hr in Hs. specialize (Hc Hs).
  destruct (ConfigManager.config_data (config_manager (write_notes l self))) as [d |];
    [| discriminate].
  cbn in Hc. eauto.
Qed.

Lemma ensure_visible_has_field note : is_Some (ensure_visible note !! "visible").
Proof.
  unfold ensure_visible, has_key.
  destruct (decide (is_Some (note !! "visible"))) as [H | H].
  - now rewrite bool_decide_eq_true_2.
  - rewrite bool_decide_eq_false_2 by exact H. cbn. rewrite lookup_insert_eq. eauto.
Qed.

Lemma ensure_visible_id (l : list obj) :
  Forall (fun note : obj => is_Some (note !! "visible")) l -> ensure_visible <$> l = l.
Proof.
  induction 1 as [| note l Hn _ IH]; [reflexivity |]. cbn. rewrite IH. f_equal.
  unfold ensure_visible, has_key. now rewrite bool_decide_eq_true_2.
Qed.

Lemma note_data_has_visible note f text : is_Some (note_data note f text !! "visible").
Proof. unfold note_data. simplify_map_eq. eauto. Qed.

Lemma get_notes_shared cm ns :
  ConfigManager.get_notes cm = (ns, true) ->
  ConfigManager.no_data cm = false /\
  exists d, ConfigManager.config_data cm = Some d /\ notes d = Some ns.
Proof.
  unfold ConfigManager.get_notes.
  destruct (ConfigManager.no_data cm); [discriminate |].
  destruct (ConfigManager.config_data cm) as [d |]; [| discriminate].
  destruct (notes d) as [ns' |] eqn:Hns; [| discriminate].
  intros [= <-]. eauto.
Qed.

Lemma init_coherent cm : note_coherent (init cm).
Proof.
  unfold init, _load_data. cbn [config_manager].
  destruct (ConfigManager.get_notes cm) as [ns shared] eqn:Hget.
  apply write_notes_coherent.
  - intros Hs. cbn in Hs |- *. destruct shared; [| discriminate Hs].
    apply get_notes_shared in Hget as (_ & d & Hd & Hns). eauto.
  - apply Forall_fmap, Forall_forall. intros note _. apply ensure_visible_has_field.
Qed.

Lemma edit_note_coherent index f self self' v :
  note_coherent self -> _edit_note index f self = Ok (self', v) -> note_coherent self'.
Proof.
  intros [Hwf Hvis] H. unfold _edit_note in H.
  apply bind_Ok in H as (note & _ & H).
  destruct (bool_decide _); [injection H as <- _; now split |].
  destruct (0 <=? index); injection H as <- _; apply write_notes_coherent; auto.
  - apply Forall_insert; [exact Hvis | apply note_data_has_visible].
  - apply Forall_app. split; [exact Hvis |].
    constructor; [apply note_data_has_visible | constructor].
Qed.

Lemma delete_note_coherent selection confirmed self :
  note_coherent self -> note_coherent (_delete_note selection confirmed self).
Proof.
  intros [Hwf Hvis]. unfold _delete_note.
  destruct selection as [index |]; [| now split].
  destruct confirmed; [| now split].
  destruct (_ && _); [| now split].
  apply write_notes_coherent; [exact Hwf |]. now apply Forall_delete.
Qed.

(** [_save_notes] keeps the list shown. *)
Lemma save_notes_view w self :
  note_coherent self ->
  notes_of (fst (_save_notes w self)) = notes_of self /\
  note_coherent (fst (_save_notes w self)).
Proof.
  intros [Hwf Hvis]. unfold _save_notes.
  pose proof (save_config_data w (ConfigManager.set_notes (notes_of self)
                                    (config_manager self))) as Hcfg.
  destruct (ConfigManager.save_config w _) as [cm saved]. cbn [fst] in *.
  unfold ConfigManager.set_notes in Hcfg.
  destruct (ConfigManager.no_data (config_manager self)) eqn:Hn;
    cbn [notes_ref_of config_manager].
  - split; [reflexivity |]. split; [discriminate | exact Hvis].
  - unfold ConfigManager.no_data in Hn.
    destruct (ConfigManager.config_data (config_manager self)) as [d |] eqn:Hd;
      [| discriminate].
    cbn in Hcfg.
    assert (Hv : notes_of {| config_manager := cm; notes_ref_of := Shared |}
                 = notes_of self).
    { unfold notes_of at 1. cbn. now rewrite Hcfg. }
    split; [exact Hv |]. split; [| now rewrite Hv].
    intros _. cbn. rewrite Hcfg. eauto.
Qed.

(** Every reachable note session is coherent. *)
Lemma note_reachable_coherent self : note_reachable self -> note_coherent self.
Proof.
  induction 1 as [cm | self index f self' v _ IH Hrun
                 | self selection confirmed _ IH | self w _ IH].
  - apply init_coherent.
  - eapply edit_note_coherent; eauto.
  - now apply delete_note_coherent.
  - now apply save_notes_view.
Qed.




(** X6. After a save that succeeded, loading the file again and opening
    the note window shows the notes that were shown when saving. *)
Theorem saved_notes_reopen (self self' : t) (w : ConfigManager.write_outcome) :
  note_reachable self ->
  _save_notes w self = (self', true) ->
  ConfigManager.disk (config_manager self') ≫= notes = Some (notes_of self) /\
  notes_of (init (fst (ConfigManager.load_config (config_manager self'))))
    = notes_of self.
Proof.
  intros Hreach Hsave. destruct (note_reachable_coherent _ Hreach) as [_ Hvis].
  unfold _save_notes in Hsave.
  destruct (ConfigManager.save_config w _) as [cm saved] eqn:Hcfg.
  injection Hsave as <- ->. cbn [config_manager].
  unfold ConfigManager.save_config in Hcfg.
  destruct (ConfigManager.no_path _) eqn:Hpath; [discriminate Hcfg |].
  destruct (ConfigManager.no_data (ConfigManager.set_notes _ _)) eqn:Hn';
    [discriminate Hcfg |].
  cbn [orb] in Hcfg. destruct w; [| discriminate Hcfg]. injection Hcfg as <-.
  unfold ConfigManager.set_notes in *.
  destruct (ConfigManager.no_data (config_manager self)) eqn:Hn;
    [rewrite Hn in Hn'; discriminate Hn' |].
  unfold ConfigManager.no_data in Hn.
  destruct (ConfigManager.config_data (config_manager self)) as [d |] eqn:Hd;
    [| discriminate Hn].
  cbn. split; [reflexivity |].
  unfold ConfigManager.load_config. cbn [ConfigManager.config_path ConfigManager.disk].
  unfold ConfigManager.no_path in *. cbn in Hpath |- *. rewrite Hpath. cbn.
  unfold init, _load_data, ConfigManager.get_notes, ConfigManager.no_data. cbn.
  destruct (doc_is_empty _) eqn:He; [unfold doc_is_empty in He; cbn in He; discriminate |].
  unfold write_notes, notes_of. cbn. now apply ensure_visible_id.
Qed.

Lemma saved_notes_reopen_witness :
  notes_of (init (fst (ConfigManager.load_config
                         (config_manager (fst (_save_notes ConfigManager.Written note_view))))))
  = [<["visible" := VBool true]> note_plain; note_hidden].
Proof.
  destruct (saved_notes_reopen note_view
              (fst (_save_notes ConfigManager.Written note_view)) ConfigManager.Written)
    as (_ & ->).
  - apply nreach_init.
  - vm_compute. reflexivity.
  - vm_compute. reflexivity.
Defined.

End NoteEdits.

(** ** Removing a time trigger *)

Section RemoveTrigger.

Import AlarmInterface.








End RemoveTrigger.

(** ** When loading raises *)

Section LoadRaises.

Import AlarmInterface.


Lemma dict_get_ok d y dflt : is_ok (dict_get d y dflt) = key_ok y.
Proof. destruct y; reflexivity. Qed.







End LoadRaises.

(** ** What a loaded view shows *)

Section LoadedView.

Import AlarmInterface.

Lemma dict_get_found inv v k :
  dict_get inv v (-1) = Ok k -> 0 <= k ->
  exists n, as_key v = Ok (Some n) /\ dict_lookup inv n = Some k.
Proof.
  unfold dict_get. intros H Hk. apply bind_Ok in H as (key & Hkey & H).
  injection H as H. destruct key as [n |]; [| lia].
  destruct (dict_lookup inv n) as [k' |] eqn:E; cbn in H; [| lia].
  subst k'. eauto.
Qed.

(** All that the loop body says of the alarm it appends. *)
Lemma alarm_of_trigger_inv t6 inv idx trig a :
  alarm_of_trigger t6 inv idx trig = Ok (Some a) ->
  exists n e,
    as_key (actual_index a) = Ok (Some n) /\
    dict_lookup inv n = Some (type6_index a) /\
    0 <= type6_index a /\
    t6 !! Z.to_nat (type6_index a) = Some e /\
    name a = get_default e "text" (VStr "") /\
    audio_file a = get_default e "audioFileName" (VStr "") /\
    loop a = get_default e "loop" (VBool false).
Proof.
  unfold alarm_of_trigger. intros H.
  apply bind_Ok in H as ([s en] & _ & H).
  apply bind_Ok in H as (nonempty & _ & H).
  destruct nonempty; [| discriminate H].
  apply bind_Ok in H as (first & _ & H).
  apply bind_Ok in H as (actual & _ & H).
  apply bind_Ok in H as (k & Hget & H).
  destruct ((0 <=? k) && (k <? Z.of_nat (length t6))) eqn:E; [| discriminate H].
  apply andb_true_iff in E as [E1 E2]. apply Z.leb_le in E1.
  apply bind_Ok in H as (e & He & H). injection H as <-. cbn.
  apply list_index_nonneg in He as [He _]; [| exact E1].
  destruct (dict_get_found _ _ _ Hget E1) as (n & Hn & Hl).
  exists n, e. auto 10.
Qed.


Lemma dict_of_elem ps k v :
  (k, v) ∈ dict_of ps ->
  exists j p, k = Z.of_nat j /\ v = Z.of_nat p /\ ps !! j = Some p.
Proof.
  unfold dict_of, enumerate. intros H.
  apply list_elem_of_fmap in H as ([i n] & [= -> ->] & H).
  apply list_elem_of_lookup in H as [j Hj].
  rewrite enumerate_from_lookup in Hj.
  destruct (ps !! j) as [m |] eqn:E; [| discriminate].
  cbn in Hj. injection Hj as <- <-. exists j, m. auto.
Qed.





End LoadedView.

(** ** Saving and loading again *)

Section SaveReload.

Import AlarmInterface.

Lemma get_time_triggers_ext cm1 cm2 :
  ConfigManager.config_data cm1 = ConfigManager.config_data cm2 ->
  ConfigManager.get_time_triggers cm1 = ConfigManager.get_time_triggers cm2.
Proof.
  intros H. unfold ConfigManager.get_time_triggers, ConfigManager.no_data. now rewrite H.
Qed.

Lemma library_ext cm1 cm2 :
  ConfigManager.config_data cm1 = ConfigManager.config_data cm2 ->
  library cm1 = library cm2.
Proof. intros H. unfold library. now rewrite H. Qed.

(** The document [_save_alarms] leaves in memory. *)
Lemma save_alarms_document w self self' saved :
  _save_alarms w self = Ok (self', saved) ->
  ConfigManager.config_data (config_manager self')
  = ConfigManager.config_data
      (ConfigManager.set_time_triggers
         (omap (saved_trigger (fst (project (library (config_manager self)))))
               (alarms self))
         (config_manager self)).
Proof.
  unfold _save_alarms. intros H.
  destruct (ConfigManager.config_data (config_manager self)) as [d |] eqn:Hd;
    [| discriminate].
  assert (Hlib : default [] (specialEffectLibrary d) = library (config_manager self)).
  { unfold library. now rewrite Hd. }
  rewrite Hlib in H.
  match type of H with
  | context [ConfigManager.save_config w ?c] =>
      pose proof (save_config_data w c) as Hcfg;
      destruct (ConfigManager.save_config w c) as [cm2 b]
  end.
  cbn [fst] in Hcfg. destruct b.
  - apply bind_Ok in H as (s1 & Hload & [= <- _]).
    apply load_data_manager in Hload. cbn in Hload. now rewrite Hload.
  - injection H as <- _. exact Hcfg.
Qed.

Lemma get_time_triggers_set ts cm :
  Forall (fun t : obj => is_time_trigger t = true) ts ->
  ConfigManager.get_time_triggers (ConfigManager.set_time_triggers ts cm)
  = if has_mesh cm then ts else ConfigManager.get_time_triggers cm.
Proof.
  intros Hts. destruct (has_mesh cm) eqn:H; [| now rewrite no_mesh_set_time_triggers].
  rewrite get_time_triggers_array, trigger_array_set_time_triggers by exact H.
  rewrite filter_app, filter_none, filter_all; [reflexivity | |].
  - eapply Forall_impl; [exact Hts |]. cbn. intros t ->. exact I.
  - apply non_time_not_time, filter_holds.
Qed.

Lemma saved_triggers_are_time fwd al :
  Forall (fun t : obj => is_time_trigger t = true) (omap (saved_trigger fwd) al).
Proof.
  apply Forall_forall. intros t Ht. apply list_elem_of_omap in Ht as (a & _ & Ha).
  now apply saved_trigger_single_ref in Ha.
Qed.

(** In a coherent session every view-record gets its trigger written. *)
Lemma coherent_saved_trigger self a :
  coherent self -> a ∈ alarms self ->
  exists j p,
    type6_index a = Z.of_nat j /\
    type6_indices (library (config_manager self)) !! j = Some p /\
    saved_trigger (fst (project (library (config_manager self)))) a
    = Some (<["effectIndices" := VList [VInt (Z.of_nat p)]]>
            (<["triggerAtSecondOfDay" := encode (seconds a) (enabled a)]> (trigger a))).
Proof.
  intros [Hcache Hrange] Ha. rewrite Forall_forall in Hrange. specialize (Hrange a Ha).
  apply Forall2_length in Hcache. rewrite <- type6_indices_length in Hcache.
  destruct (lookup_lt_is_Some_2 (type6_indices (library (config_manager self)))
              (Z.to_nat (type6_index a))) as [p Hp]; [lia |].
  exists (Z.to_nat (type6_index a)), p.
  split; [lia |]. split; [exact Hp |].
  rewrite saved_trigger_spec, project_spec. cbn [fst].
  replace (type6_index a) with (Z.of_nat (Z.to_nat (type6_index a))) at 1 by lia.
  rewrite dict_of_lookup, Hp. cbn.
  destruct (0 <=? Z.of_nat p) eqn:E; [reflexivity | apply Z.leb_gt in E; lia].
Qed.

Lemma omap_all_Some {A B} (f : A -> option B) (g : A -> B) (l : list A) :
  Forall (fun x => f x = Some (g x)) l -> omap f l = g <$> l.
Proof.
  induction 1 as [| x l Hx _ IH]; [reflexivity |]. cbn. now rewrite Hx, IH.
Qed.

(** X10. In every reachable session with a document that has a first
    mesh, [_save_alarms] writes one time trigger for each view-record, in
    the order of the view: no record is left out. *)
Theorem save_writes_every_record (self self' : t) (w : ConfigManager.write_outcome)
    (saved : bool) :
  reachable self ->
  has_mesh (config_manager self) = true ->
  _save_alarms w self = Ok (self', saved) ->
  length (ConfigManager.get_time_triggers (config_manager self')) = length (alarms self) /\
  Forall2 (fun a t =>
             saved_trigger (fst (project (library (config_manager self)))) a = Some t /\
             get t "triggerAtSecondOfDay" = encode (seconds a) (enabled a))
          (alarms self)
          (ConfigManager.get_time_triggers (config_manager self')).
Proof.
  intros Hreach Hmesh Hrun.
  pose proof (reachable_coherent _ Hreach) as Hcoh.
  rewrite (get_time_triggers_ext _ _ (save_alarms_document _ _ _ _ Hrun)).
  rewrite get_time_triggers_set by apply saved_triggers_are_time. rewrite Hmesh.
  set (fwd := fst (project (library (config_manager self)))).
  assert (Hall : Forall (fun a => exists t,
                    saved_trigger fwd a = Some t /\
                    get t "triggerAtSecondOfDay" = encode (seconds a) (enabled a))
                  (alarms self)).
  { apply Forall_forall. intros a Ha.
    destruct (coherent_saved_trigger self a Hcoh Ha) as (j & p & _ & _ & Hs).
    eexists. split; [exact Hs |]. unfold get.
    rewrite lookup_insert_ne by discriminate. now rewrite lookup_insert_eq. }
  clearbody fwd. induction Hall as [| a al (t & Ht & Hf) _ IH]; cbn.
  - split; [reflexivity | constructor].
  - rewrite Ht. cbn. destruct IH as [IH1 IH2]. split; [now rewrite IH1 |].
    now constructor.
Qed.

Lemma save_writes_every_record_witness :
  length (ConfigManager.get_time_triggers (config_manager view_edited_saved))
    = length (alarms view_edited) /\
  Forall2 (fun a t =>
             saved_trigger (fst (project (library (config_manager view_edited)))) a
               = Some t /\
             get t "triggerAtSecondOfDay" = encode (seconds a) (enabled a))
          (alarms view_edited)
          (ConfigManager.get_time_triggers (config_manager view_edited_saved)).
Proof.
  apply (save_writes_every_record view_edited view_edited_saved ConfigManager.Written true).
  - apply (reach_save_alarm view_scenario 0 form_tea view_edited Closed).
    + apply (reach_init (manager_on doc_scenario)). vm_compute. reflexivity.
    + vm_compute. reflexivity.
  - vm_compute. reflexivity.
  - vm_compute. reflexivity.
Defined.

(** Writing a decoded time field and reading it again gives the same. *)
Lemma decode_encode_stable v s en :
  decode_field v = Ok (s, en) -> decode_field (encode s en) = Ok (s, en).
Proof.
  unfold decode_field. intros H. apply bind_Ok in H as (n & _ & H).
  injection H as H. unfold encode, int_or_zero. rewrite int_str. cbn.
  unfold decode in *. destruct (100000 <=? n) eqn:E; injection H as <- <-.
  - replace (n - 100000 + 100000) with n by lia. now rewrite E.
  - now rewrite E.
Qed.

(** The loop body on a trigger as [_save_alarms] writes it. *)
Lemma alarm_of_saved_trigger t6 inv idx (trig : obj) s en (j p : nat) e :
  decode_field (encode s en) = Ok (s, en) ->
  dict_lookup inv (Z.of_nat p) = Some (Z.of_nat j) ->
  t6 !! j = Some e ->
  exists a',
    alarm_of_trigger t6 inv idx
      (<["effectIndices" := VList [VInt (Z.of_nat p)]]>
       (<["triggerAtSecondOfDay" := encode s en]> trig)) = Ok (Some a') /\
    summary a' = (s, en, get_default e "text" (VStr ""),
                  get_default e "audioFileName" (VStr ""),
                  get_default e "loop" (VBool false)) /\
    type6_index a' = Z.of_nat j.
Proof.
  intros Hdec Hinv He. eexists. split; [| split].
  set (t := <["effectIndices" := VList [VInt (Z.of_nat p)]]> _).
  assert (H1 : get_default t "triggerAtSecondOfDay" (VStr "0") = encode s en).
  { unfold get_default, t. now simplify_map_eq. }
  assert (H2 : get_default t "effectIndices" (VList []) = VList [VInt (Z.of_nat p)]).
  { unfold get_default, t. now simplify_map_eq. }
  unfold alarm_of_trigger. cbv zeta. rewrite H1, H2, Hdec. cbn [mbind result_bind].
  cbn [truthy bool_decide decide_rel negb len mbind result_bind index0 isinstance_int].
  rewrite bool_decide_eq_false_2 by discriminate. cbn [negb mbind result_bind length].
  change (0 <? Z.of_nat 1) with true. cbv iota.
  unfold dict_get. cbn [as_key mbind result_bind]. rewrite Hinv. cbn [default].
  assert (Hr : (0 <=? Z.of_nat j) && (Z.of_nat j <? Z.of_nat (length t6)) = true).
  { apply lookup_lt_Some in He. apply andb_true_iff.
    split; [apply Z.leb_le | apply Z.ltb_lt]; lia. }
  unfold id. rewrite Hr.
  destruct (list_index_in_range t6 (Z.of_nat j)) as (x & -> & Hx).
  { apply lookup_lt_Some in He. lia. }
  rewrite Nat2Z.id in Hx. assert (x = e) as -> by congruence.
  cbn [mbind result_bind]. reflexivity.
  all: reflexivity.
Qed.

Lemma load_loop_map t6 inv (al0 : list alarm) (ts : list obj) :
  Forall2 (fun a t => forall idx, exists a',
             alarm_of_trigger t6 inv idx t = Ok (Some a') /\
             summary a' = summary a /\ type6_index a' = type6_index a) al0 ts ->
  forall off acc tm,
  exists news tm',
    load_loop t6 inv (enumerate_from off ts) acc tm = Ok (acc ++ news, tm') /\
    summary <$> news = summary <$> al0 /\
    type6_index <$> news = type6_index <$> al0.
Proof.
  induction 1 as [| a t al0 ts Hat _ IH]; intros off acc tm; cbn [enumerate_from load_loop].
  - exists [], tm. rewrite app_nil_r. auto.
  - destruct (Hat off) as (a' & -> & Hs & Hk). cbn [mbind result_bind].
    destruct (IH (S off) (acc ++ [a'])
                (dict_set (Z.of_nat off) (Z.of_nat (length acc)) tm))
      as (news & tm' & -> & Hsum & Hidx).
    exists (a' :: news), tm'. rewrite <- app_assoc. split; [reflexivity |].
    cbn [fmap list_fmap]. now rewrite Hs, Hk, Hsum, Hidx.
Qed.

(** What a load says of each record, in terms of the library. *)
Lemma loaded_alarm_facts self0 self a :
  _load_data self0 = Ok self -> a ∈ alarms self ->
  exists j p e,
    type6_index a = Z.of_nat j /\
    type6_indices (library (config_manager self)) !! j = Some p /\
    filter (fun x : obj => is_type6 x) (library (config_manager self)) !! j = Some e /\
    name a = get_default e "text" (VStr "") /\
    audio_file a = get_default e "audioFileName" (VStr "") /\
    loop a = get_default e "loop" (VBool false) /\
    decode_field (get_default (trigger a) "triggerAtSecondOfDay" (VStr "0"))
      = Ok (seconds a, enabled a).
Proof.
  intros Hload Ha.
  destruct (load_data_caches _ _ Hload) as [Ht6 _].
  destruct (load_data_alarm _ _ _ Hload Ha) as (inv & idx & Hmk).
  pose proof (alarm_of_trigger_fields _ _ _ _ _ Hmk) as (_ & _ & Hdec & Hr).
  destruct (alarm_of_trigger_inv _ _ _ _ _ Hmk)
    as (n & e & _ & _ & Hk & He & Hname & Haudio & Hloop).
  rewrite Ht6 in He, Hr.
  destruct (lookup_lt_is_Some_2 (type6_indices (library (config_manager self)))
              (Z.to_nat (type6_index a))) as [p Hp].
  { rewrite type6_indices_length. lia. }
  exists (Z.to_nat (type6_index a)), p, e.
  split; [lia |]. auto 10.
Qed.

Lemma load_data_no_triggers self0 self :
  _load_data self0 = Ok self ->
  ConfigManager.get_time_triggers (config_manager self) = [] ->
  alarms self = [].
Proof.
  intros Hload Hnone. pose proof (load_data_manager _ _ Hload) as Hcm.
  unfold _load_data in Hload.
  destruct (ConfigManager.config_data (config_manager self0)); [| discriminate].
  rewrite <- Hcm, Hnone in Hload. cbn in Hload. injection Hload as <-. reflexivity.
Qed.

(** X11. Saving a freshly loaded view and loading it again shows the same
    alarms: the same times, enabled flags, names, audio files and loop
    flags, at the same subsequence positions, in the same order. *)
Theorem save_reload_keeps_view (self0 self self' : t) (w : ConfigManager.write_outcome) :
  _load_data self0 = Ok self ->
  _save_alarms w self = Ok (self', true) ->
  summary <$> alarms self' = summary <$> alarms self /\
  type6_index <$> alarms self' = type6_index <$> alarms self.
Proof.
  intros Hload Hsave.
  pose proof (load_data_coherent _ _ Hload) as Hcoh.
  pose proof (save_alarms_document _ _ _ _ Hsave) as Hdoc.
  set (lib := library (config_manager self)) in *.
  set (fwd := fst (project lib)) in *.
  set (ts := omap (saved_trigger fwd) (alarms self)) in *.
  (* the reload that ends the save *)
  assert (Hre : exists cm2, _load_data (with_manager cm2 self) = Ok self').
  { unfold _save_alarms in Hsave.
    destruct (ConfigManager.config_data (config_manager self)); [| discriminate].
    destruct (ConfigManager.save_config w _) as [cm2 b].
    destruct b; [| discriminate].
    apply bind_Ok in Hsave as (s1 & Hl & [= <-]). eauto. }
  destruct Hre as [cm2 Hre].
  pose proof (load_data_manager _ _ Hre) as Hcm2. cbn in Hcm2.
  destruct (load_data_caches _ _ Hre) as [Ht6' Hfwd'].
  assert (Hlib' : library (config_manager self') = lib).
  { rewrite (library_ext _ _ Hdoc). apply library_set_time_triggers. }
  rewrite Hlib' in Ht6', Hfwd'.
  (* the time triggers it reads *)
  assert (Hts : ConfigManager.get_time_triggers (config_manager self') = ts).
  { rewrite (get_time_triggers_ext _ _ Hdoc).
    rewrite get_time_triggers_set by apply saved_triggers_are_time.
    destruct (has_mesh (config_manager self)) eqn:Hm; [reflexivity |].
    pose proof (get_time_triggers_no_mesh _ Hm) as Hnone.
    rewrite Hnone. unfold ts. now rewrite (load_data_no_triggers _ _ Hload Hnone). }
  assert (Hloop : exists tm',
            load_loop (type6_effects self') (invert fwd) (enumerate ts) [] []
            = Ok (alarms self', tm')).
  { unfold fwd. rewrite <- Hts, <- Hlib'. unfold _load_data in Hre.
    cbn [config_manager with_manager] in Hre.
    destruct (ConfigManager.config_data cm2) as [d2 |] eqn:Hd; [| discriminate].
    apply bind_Ok in Hre as ([al tm] & Hl & [= <-]). cbn.
    unfold library. rewrite Hd. cbn. eauto. }
  destruct Hloop as [tm' Hloop]. subst ts fwd lib.
  (* record by record *)
  assert (Hrec : Forall2 (fun a t => forall idx, exists a',
                    alarm_of_trigger (type6_effects self')
                      (invert (fst (project (library (config_manager self))))) idx t
                      = Ok (Some a') /\
                    summary a' = summary a /\ type6_index a' = type6_index a)
                  (alarms self)
                  (omap (saved_trigger (fst (project (library (config_manager self)))))
                     (alarms self))).
  { assert (Hall : Forall (fun a => a ∈ alarms self) (alarms self))
      by (apply Forall_forall; auto).
    induction Hall as [| a al Ha _ IH]; [constructor |]. cbn.
    destruct (coherent_saved_trigger self a Hcoh Ha) as (j & p & Hj & Hp & ->).
    destruct (loaded_alarm_facts _ _ _ Hload Ha)
      as (j' & p' & e & Hj' & Hp' & He & Hname & Haudio & Hloop' & Hdec).
    assert (j' = j) as -> by lia.
    constructor; [| exact IH]. intros idx.
    destruct (alarm_of_saved_trigger (type6_effects self')
                (invert (fst (project (library (config_manager self))))) idx (trigger a)
                (seconds a) (enabled a) j p e) as (a' & Hmk & Hsum & Hk).
    - eapply decode_encode_stable. exact Hdec.
    - apply invert_lookup.
      + rewrite project_spec. cbn [fst]. rewrite dict_of_values.
        apply NoDup_fmap; [apply Nat2Z.inj' | apply type6_indices_NoDup].
      + apply dict_lookup_elem. rewrite project_spec. cbn [fst].
        now rewrite dict_of_lookup, Hp.
    - now rewrite Ht6'.
    - exists a'. split; [exact Hmk |]. split; [| now rewrite Hk, Hj].
      rewrite Hsum. unfold summary. now rewrite Hname, Haudio, Hloop'. }
  destruct (load_loop_map _ _ _ _ Hrec 0%nat [] []) as (news & tm'' & Hrun & Hsum & Hidx).
  unfold enumerate in Hloop. rewrite Hrun in Hloop. injection Hloop as <- _.
  cbn. auto.
Qed.

Lemma save_reload_keeps_view_witness :
  summary <$> alarms view_scenario_saved = summary <$> alarms view_scenario /\
  type6_index <$> alarms view_scenario_saved = type6_index <$> alarms view_scenario.
Proof.
  apply (save_reload_keeps_view (fresh_alarm_window (manager_on doc_scenario))
           view_scenario view_scenario_saved ConfigManager.Written).
  - vm_compute. reflexivity.
  - vm_compute. reflexivity.
Defined.

End SaveReload.

(** ** Adding an alarm *)

Section AddAlarm.
Import AlarmInterface.

Lemma new_effect_is_type6 f : is_type6 (new_effect f) = true.
Proof.
  unfold is_type6, new_effect, get. cbv zeta.
  destruct (truthy (VStr (audio_var f))), (loop_var f); now simplify_map_eq.
Qed.

Lemma first_key_of_snoc d k v :
  Forall (fun kv : Z * Z => snd kv <> v) d -> first_key_of (d ++ [(k, v)]) v = Some k.
Proof.
  induction 1 as [| [k0 v0] d Hne _ IH]; cbn.
  - now rewrite Z.eqb_refl.
  - cbn in Hne. apply Z.eqb_neq in Hne. now rewrite Hne.
Qed.

(** The dictionary entry of an alarm-kind entry appended to the library. *)
Lemma first_key_of_appended lib e :
  is_type6 e = true ->
  first_key_of (fst (project (lib ++ [e]))) (Z.of_nat (length lib))
  = Some (Z.of_nat (length (filter (fun x : obj => is_type6 x) lib))).
Proof.
  intros He. rewrite project_spec. cbn [fst].
  rewrite type6_indices_snoc, He, dict_of_snoc, <- type6_indices_length.
  apply first_key_of_snoc, Forall_forall. intros [k v] Hin. cbn.
  apply dict_of_elem in Hin as (j & p & _ & -> & Hp).
  pose proof (type6_indices_bound lib) as Hb. rewrite Forall_forall in Hb.
  apply list_elem_of_lookup_2, Hb in Hp. lia.
Qed.

(** A load reads nothing of the window but its manager. *)
Lemma load_data_only_manager self1 self2 :
  config_manager self1 = config_manager self2 -> _load_data self1 = _load_data self2.
Proof. intros H. unfold _load_data. now rewrite H. Qed.

(** X12. Adding an alarm appends its entry to the library and leaves the
    time triggers of the document alone; the view it leaves is the view a
    newly opened window would show on that document, followed by the new
    alarm, which refers to the appended entry. *)
Theorem add_alarm_appends_to_document_view
    (self self' : t) (index : Z) (f : form) (v : verdict) :
  index < 0 ->
  0 <= Utils.time_to_seconds (time_var f) ->
  ConfigManager.no_data (config_manager self) = false ->
  save_alarm index f self = Ok (self', v) ->
  library (config_manager self') = library (config_manager self) ++ [new_effect f] /\
  ConfigManager.get_time_triggers (config_manager self')
    = ConfigManager.get_time_triggers (config_manager self) /\
  exists fresh a,
    init (config_manager self') = Ok fresh /\
    alarms self' = alarms fresh ++ [a] /\
    summary a = (Utils.time_to_seconds (time_var f), enabled_var f,
                 VStr (name_var f), VStr (audio_var f), VBool (loop_var f)) /\
    actual_index a = VInt (Z.of_nat (length (library (config_manager self)))) /\
    type6_index a
      = Z.of_nat (length (filter (fun x : obj => is_type6 x)
                            (library (config_manager self)))) /\
    type6_effects self' !! Z.to_nat (type6_index a) = Some (new_effect f).
Proof.
  intros Hidx Htime Hnd Hrun. unfold save_alarm in Hrun.
  destruct (Utils.time_to_seconds (time_var f) <? 0) eqn:Et;
    [apply Z.ltb_lt in Et; lia |].
  destruct (0 <=? index) eqn:Ei; [apply Z.leb_le in Ei; lia |].
  unfold ConfigManager.add_type6_effect in Hrun. rewrite Hnd in Hrun.
  destruct (ConfigManager.config_data (config_manager self)) as [d |] eqn:Hd.
  2: { unfold ConfigManager.no_data in Hnd. now rewrite Hd in Hnd. }
  cbv zeta in Hrun.
  set (lib := default [] (specialEffectLibrary d)) in *.
  set (cm' := ConfigManager.with_data _ (config_manager self)) in *.
  apply bind_Ok in Hrun as (s1 & Hload & Hrun).
  pose proof (load_data_manager _ _ Hload) as Hcm. cbn [config_manager with_manager] in Hcm.
  destruct (load_data_caches _ _ Hload) as [Ht6 Hfwd].
  assert (Hlib : library (config_manager self) = lib).
  { unfold library. now rewrite Hd. }
  assert (Hlib' : library cm' = lib ++ [new_effect f]) by reflexivity.
  rewrite Hcm, Hlib' in Ht6, Hfwd.
  rewrite Hfwd in Hrun.
  replace (Z.of_nat (length (lib ++ [new_effect f])) - 1) with (Z.of_nat (length lib)) in Hrun
    by (rewrite length_app; cbn; lia).
  rewrite (first_key_of_appended _ _ (new_effect_is_type6 f)) in Hrun.
  injection Hrun as <- _. cbn [config_manager with_alarms alarms type6_effects].
  rewrite Hcm, Hlib', Hlib. split; [reflexivity |]. split.
  { assert (Hnd' : ConfigManager.no_data cm' = false).
    { unfold ConfigManager.no_data, cm', doc_is_empty. cbn.
      destruct (notes d), (meshes d); reflexivity. }
    unfold ConfigManager.get_time_triggers. rewrite Hnd, Hd, Hnd'. reflexivity. }
  eexists s1, _. split.
  { unfold init. rewrite <- Hload. now apply load_data_only_manager. }
  split; [reflexivity |]. cbn [summary seconds enabled name audio_file loop
                                actual_index type6_index].
  split; [reflexivity |]. split; [reflexivity |]. split; [reflexivity |].
  rewrite Nat2Z.id, Ht6, filter_app, filter_cons, filter_nil.
  rewrite new_effect_is_type6. cbn.
  now rewrite lookup_app_r, Nat.sub_diag by lia.
Qed.

Lemma add_alarm_appends_to_document_view_witness :
  library (config_manager view_scenario_added)
    = library (config_manager view_scenario) ++ [new_effect form_tea] /\
  ConfigManager.get_time_triggers (config_manager view_scenario_added)
    = ConfigManager.get_time_triggers (config_manager view_scenario) /\
  exists fresh a,
    init (config_manager view_scenario_added) = Ok fresh /\
    alarms view_scenario_added = alarms fresh ++ [a] /\
    summary a = (Utils.time_to_seconds (time_var form_tea), enabled_var form_tea,
                 VStr (name_var form_tea), VStr (audio_var form_tea),
                 VBool (loop_var form_tea)) /\
    actual_index a = VInt (Z.of_nat (length (library (config_manager view_scenario)))) /\
    type6_index a
      = Z.of_nat (length (filter (fun x : obj => is_type6 x)
                            (library (config_manager view_scenario)))) /\
    type6_effects view_scenario_added !! Z.to_nat (type6_index a)
      = Some (new_effect form_tea).
Proof.
  apply (add_alarm_appends_to_document_view view_scenario view_scenario_added
           (-1) form_tea Closed).
  - lia.
  - vm_compute. discriminate.
  - vm_compute. reflexivity.
  - vm_compute. reflexivity.
Defined.

End AddAlarm.

(** ** What the window leaves alone *)

Section Frame.
Import AlarmInterface.

Lemma non_alarm_part_ext cm1 cm2 :
  ConfigManager.config_path cm1 = ConfigManager.config_path cm2 ->
  ConfigManager.config_data cm1 = ConfigManager.config_data cm2 ->
  non_alarm_part cm1 = non_alarm_part cm2.
Proof. intros H1 H2. unfold non_alarm_part, library. now rewrite H1, H2. Qed.

Lemma non_time_triggers_ext cm1 cm2 :
  ConfigManager.config_data cm1 = ConfigManager.config_data cm2 ->
  non_time_triggers cm1 = non_time_triggers cm2.
Proof. intros H. unfold non_time_triggers, trigger_array. now rewrite H. Qed.

Lemma other_kinds_insert (l : list obj) p e e' :
  l !! p = Some e -> is_type6 e = true -> is_type6 e' = true ->
  filter (fun x : obj => negb (is_type6 x)) (<[p := e']> l)
  = filter (fun x : obj => negb (is_type6 x)) l.
Proof.
  intros Hp He He'. pose proof (lookup_lt_Some _ _ _ Hp) as Hlt.
  rewrite <- (take_drop_middle l p e Hp).
  replace p with (length (take p l)) at 1 by (rewrite length_take; lia).
  rewrite insert_middle, !filter_app, !filter_cons, He, He'. reflexivity.
Qed.

Lemma other_kinds_delete (l : list obj) p e :
  l !! p = Some e -> is_type6 e = true ->
  filter (fun x : obj => negb (is_type6 x)) (delete p l)
  = filter (fun x : obj => negb (is_type6 x)) l.
Proof.
  intros Hp He. pose proof (lookup_lt_Some _ _ _ Hp) as Hlt.
  rewrite <- (take_drop_middle l p e Hp).
  replace p with (length (take p l)) at 1 by (rewrite length_take; lia).
  rewrite delete_middle, !filter_app, !filter_cons, He. reflexivity.
Qed.

Lemma set_type6_effect_frame k e' cm :
  (forall p e, type6_indices (library cm) !! Z.to_nat k = Some p ->
               library cm !! p = Some e -> is_type6 e' = true) ->
  non_alarm_part (ConfigManager.set_type6_effect k e' cm) = non_alarm_part cm /\
  trigger_array (ConfigManager.set_type6_effect k e' cm) = trigger_array cm.
Proof.
  intros He'. unfold ConfigManager.set_type6_effect.
  destruct (ConfigManager.no_data cm); [auto |].
  unfold library in He'.
  destruct (ConfigManager.config_data cm) as [d |] eqn:Hd; [| auto].
  cbv zeta. cbn in He'.
  set (lib := default [] (specialEffectLibrary d)) in *.
  assert (Hsame : forall lib',
             filter (fun x : obj => negb (is_type6 x)) lib'
             = filter (fun x : obj => negb (is_type6 x)) lib ->
             non_alarm_part
               (ConfigManager.with_data (Some (with_library (Some lib') d)) cm)
             = non_alarm_part cm /\
             trigger_array
               (ConfigManager.with_data (Some (with_library (Some lib') d)) cm)
             = trigger_array cm).
  { intros lib' Hf. unfold non_alarm_part, trigger_array, library. rewrite Hd. cbn.
    fold lib. now rewrite Hf. }
  apply Hsame.
  destruct ((0 <=? k) && (k <? Z.of_nat (length (type6_indices lib)))); [| reflexivity].
  destruct (type6_indices lib !! Z.to_nat k) as [p |] eqn:Hp; [| reflexivity].
  destruct (type6_indices_lookup _ _ _ Hp) as (e & Hlp & He & _).
  eapply other_kinds_insert; eauto.
Qed.

Lemma remove_type6_effect_frame k cm :
  non_alarm_part (ConfigManager.remove_type6_effect k cm) = non_alarm_part cm.
Proof.
  unfold ConfigManager.remove_type6_effect.
  destruct (ConfigManager.no_data cm); [reflexivity |].
  destruct (ConfigManager.config_data cm) as [d |] eqn:Hd; [| reflexivity].
  destruct (specialEffectLibrary d) as [lib |] eqn:Hlib; [| reflexivity].
  cbv zeta.
  destruct ((0 <=? k) && (k <? Z.of_nat (length (type6_indices lib)))); [| reflexivity].
  destruct (type6_indices lib !! Z.to_nat k) as [p |] eqn:Hp; [| reflexivity].
  destruct (type6_indices_lookup _ _ _ Hp) as (e & Hlp & He & _).
  unfold non_alarm_part, library. rewrite Hd. cbn. rewrite Hlib. cbn.
  now rewrite (other_kinds_delete _ _ _ Hlp He).
Qed.

Lemma remove_time_trigger_frame ti self :
  non_alarm_part (config_manager (_remove_time_trigger ti self))
  = non_alarm_part (config_manager self).
Proof.
  unfold _remove_time_trigger.
  destruct (ConfigManager.no_data (config_manager self)); [reflexivity |].
  destruct (ConfigManager.config_data (config_manager self)) as [d |] eqn:Hd;
    [| reflexivity].
  destruct (meshes d) as [ms |] eqn:Hms; cbn [default]; unfold id; [| reflexivity].
  destruct ms as [| m0 rest]; [reflexivity |].
  destruct (specialEffectTriggers m0); [| reflexivity].
  cbv zeta.
  destruct ((0 <=? ti) && _); [| reflexivity].
  destruct (_ !! Z.to_nat ti); [| reflexivity].
  unfold non_alarm_part, library. cbn. rewrite Hd. cbn. rewrite Hms. reflexivity.
Qed.

Lemma set_time_triggers_frame ts cm :
  non_alarm_part (ConfigManager.set_time_triggers ts cm) = non_alarm_part cm.
Proof.
  unfold ConfigManager.set_time_triggers.
  destruct (ConfigManager.no_data cm); [reflexivity |].
  destruct (ConfigManager.config_data cm) as [d |] eqn:Hd; [| reflexivity].
  destruct (meshes d) as [ms |] eqn:Hms; cbn [default]; unfold id; [| reflexivity].
  destruct ms as [| m0 rest]; [reflexivity |].
  cbv zeta. unfold non_alarm_part, library. cbn. rewrite Hd. cbn. rewrite Hms. reflexivity.
Qed.

Lemma set_time_triggers_non_time ts cm :
  Forall (fun t : obj => is_time_trigger t = true) ts ->
  non_time_triggers (ConfigManager.set_time_triggers ts cm) = non_time_triggers cm.
Proof.
  intros Hts. destruct (has_mesh cm) eqn:Hm; [| now rewrite no_mesh_set_time_triggers].
  unfold non_time_triggers. rewrite trigger_array_set_time_triggers by exact Hm.
  rewrite filter_app, filter_all by apply filter_holds.
  rewrite (filter_none _ ts); [apply app_nil_r |].
  eapply Forall_impl; [exact Hts |]. cbn. intros t ->. cbn. tauto.
Qed.

Lemma set_time_triggers_path ts cm :
  ConfigManager.config_path (ConfigManager.set_time_triggers ts cm)
  = ConfigManager.config_path cm.
Proof.
  unfold ConfigManager.set_time_triggers.
  destruct (ConfigManager.no_data cm); [reflexivity |].
  destruct (ConfigManager.config_data cm); [| reflexivity].
  destruct (default [] _); reflexivity.
Qed.

Lemma save_config_path w cm :
  ConfigManager.config_path (fst (ConfigManager.save_config w cm))
  = ConfigManager.config_path cm.
Proof.
  unfold ConfigManager.save_config.
  destruct (_ || _); [reflexivity |]. destruct w; reflexivity.
Qed.

(** X13. No action in the alarm window changes the path of the file, the
    notes, the other top-level fields, the other fields of the meshes, the
    triggers of the meshes after the first, or the library entries that are
    not alarm-kind; and editing, adding and saving keep the triggers of the
    first mesh that are not time triggers. *)
Theorem window_leaves_the_rest_alone (deletes : bool) (self self' : t) :
  reachable self ->
  window_step deletes self self' ->
  non_alarm_part (config_manager self') = non_alarm_part (config_manager self) /\
  (deletes = false ->
   non_time_triggers (config_manager self') = non_time_triggers (config_manager self)).
Proof.
  intros Hreach Hstep. pose proof (reachable_coherent _ Hreach) as Hcoh.
  destruct Hstep as [self index f self' v Hrun
                    | self selection confirmed self' Hrun
                    | self w self' saved Hrun].
  - (* the edit window *)
    unfold save_alarm in Hrun.
    destruct (Utils.time_to_seconds (time_var f) <? 0);
      [injection Hrun as <- _; auto |].
    destruct (0 <=? index) eqn:Hidx.
    + apply bind_Ok in Hrun as (old_alarm & Hold & Hrun).
      apply bind_Ok in Hrun as (old_effect & Heff & Hrun).
      injection Hrun as <- _. cbn [config_manager with_alarms with_manager].
      destruct Hcoh as [Hcache Hrange]. rewrite Forall_forall in Hrange.
      apply Z.leb_le in Hidx. apply (list_index_nonneg _ _ _ Hidx) in Hold as [Hold _].
      assert (Hk : 0 <= type6_index old_alarm < Z.of_nat (length (type6_effects self))).
      { apply Hrange. apply list_elem_of_lookup. eauto. }
      apply list_index_nonneg in Heff as [Heff _]; [| lia].
      destruct (set_type6_effect_frame (type6_index old_alarm)
                  (updated_effect f old_effect) (config_manager self)) as [Hpart Harr].
      { intros p e Hp He.
        destruct (type6_indices_lookup _ _ _ Hp) as (e0 & He0 & Ht6 & Hfil & _).
        destruct (Forall2_lookup_l _ _ _ _ _ Hcache Heff) as (e1 & Hfil1 & Hagree).
        assert (e1 = e0) as -> by congruence.
        destruct (updated_effect_fields f old_effect) as (_ & _ & _ & Hupd).
        rewrite (agree_off_edit_type6 _ _ Hupd), (agree_off_edit_type6 _ _ Hagree).
        exact Ht6. }
      split; [exact Hpart |]. intros _. unfold non_time_triggers. now rewrite Harr.
    + destruct (ConfigManager.add_type6_effect (new_effect f) (config_manager self))
        as [cm' actual] eqn:Hadd.
      apply bind_Ok in Hrun as (s1 & Hload & Hrun).
      pose proof (load_data_manager _ _ Hload) as Hcm.
      cbn [config_manager with_manager] in Hcm.
      assert (Hs' : config_manager self' = cm').
      { destruct (first_key_of _ _); injection Hrun as <- _; exact Hcm. }
      rewrite Hs'. clear Hrun Hload Hcm Hs'.
      unfold ConfigManager.add_type6_effect in Hadd.
      destruct (ConfigManager.no_data (config_manager self));
        [injection Hadd as <- _; auto |].
      destruct (ConfigManager.config_data (config_manager self)) as [d |] eqn:Hd;
        [| injection Hadd as <- _; auto].
      injection Hadd as <- _.
      unfold non_alarm_part, non_time_triggers, trigger_array, library.
      rewrite Hd. cbn. rewrite filter_app, filter_cons, filter_nil.
      rewrite new_effect_is_type6. cbn. now rewrite app_nil_r.
  - (* a deletion *)
    split; [| discriminate].
    unfold _delete_alarm in Hrun.
    destruct selection as [index |]; [| now injection Hrun as <-].
    destruct confirmed; [| now injection Hrun as <-].
    apply bind_Ok in Hrun as (alarm & _ & Hload).
    rewrite (load_data_manager _ _ Hload). cbn [config_manager with_manager].
    now rewrite remove_type6_effect_frame, remove_time_trigger_frame.
  - (* saving *)
    pose proof (save_alarms_document _ _ _ _ Hrun) as Hdoc.
    assert (Hpath : ConfigManager.config_path (config_manager self')
                    = ConfigManager.config_path (config_manager self)).
    { unfold _save_alarms in Hrun.
      destruct (ConfigManager.config_data (config_manager self)); [| discriminate].
      cbv zeta in Hrun.
      destruct (ConfigManager.save_config w _) as [cm2 b] eqn:Hsave.
      assert (Hp2 : ConfigManager.config_path cm2
                    = ConfigManager.config_path (config_manager self)).
      { change cm2 with (fst (cm2, b)).
        now rewrite <- Hsave, save_config_path, set_time_triggers_path. }
      destruct b.
      - apply bind_Ok in Hrun as (s1 & Hload & [= <-]).
        now rewrite (load_data_manager _ _ Hload).
      - injection Hrun as <-. exact Hp2. }
    split.
    + rewrite <- (set_time_triggers_frame
                    (omap (saved_trigger
                             (fst (project (library (config_manager self)))))
                       (alarms self)) (config_manager self)).
      apply non_alarm_part_ext; [| exact Hdoc].
      now rewrite Hpath, set_time_triggers_path.
    + intros _. rewrite (non_time_triggers_ext _ _ Hdoc).
      apply set_time_triggers_non_time, saved_triggers_are_time.
Qed.

Lemma window_leaves_the_rest_alone_witness :
  non_alarm_part (config_manager view_edited)
    = non_alarm_part (config_manager view_scenario) /\
  (false = false ->
   non_time_triggers (config_manager view_edited)
     = non_time_triggers (config_manager view_scenario)).
Proof.
  apply (window_leaves_the_rest_alone false view_scenario view_edited).
  - apply (reach_init (manager_on doc_scenario)). vm_compute. reflexivity.
  - apply (step_save_alarm view_scenario 0 form_tea view_edited Closed).
    vm_compute. reflexivity.
Defined.

End Frame.

